(** * Internship recommendation engine: scoring, filtering and ranking

    A shallow embedding of [Backend/app/services/recommendation_engine.py]
    (class [RecommendationEngine]) together with the properties its
    specification states about it.

    Conventions of the embedding.
    - Python [str] values are [string]s; [lower] and [strip] are the ASCII
      fragments of [str.lower] and [str.strip].
    - Python floats and ints that take part in a score are rationals ([Q]);
      the arithmetic is exact, comparisons are [Qle_bool]/[Qlt_le_dec].
      Where the last binary place of a double decides the outcome, the
      operation is rounded with [to_double].
    - A pandas DataFrame is the list of its rows in row order; a missing
      cell (NaN) is [None].
    - scikit-learn's vectorizer/cosine similarity and pandas'
      [sort_values] are library code: they enter as parameters. *)

From Stdlib Require Import List String Ascii Bool Arith ZArith QArith Qround Qminmax Lia DecimalString.
From Stdlib Require Import Permutation Sorted Lqa Morphisms Setoid Qabs Qpower.
Import ListNotations.
Local Open Scope string_scope.

(** ** Python string primitives *)
Module PyStr.

(** [c.lower()] on one ASCII character. *)
Definition lower_ascii (c : ascii) : ascii :=
  let n := nat_of_ascii c in
  if (65 <=? n)%nat && (n <=? 90)%nat then ascii_of_nat (n + 32) else c.

(** [s.lower()] *)
Fixpoint lower (s : string) : string :=
  match s with
  | EmptyString => EmptyString
  | String c t => String (lower_ascii c) (lower t)
  end.

(** The ASCII characters [str.strip()] removes: tab, LF, VT, FF, CR,
    FS, GS, RS, US and space. *)
Definition is_space (c : ascii) : bool :=
  let n := nat_of_ascii c in
  ((9 <=? n)%nat && (n <=? 13)%nat) || ((28 <=? n)%nat && (n <=? 32)%nat).

Fixpoint lstrip (s : string) : string :=
  match s with
  | EmptyString => EmptyString
  | String c t => if is_space c then lstrip t else s
  end.

Fixpoint rstrip (s : string) : string :=
  match s with
  | EmptyString => EmptyString
  | String c t =>
      match rstrip t with
      | EmptyString => if is_space c then EmptyString else String c EmptyString
      | t' => String c t'
      end
  end.

(** [s.strip()] *)
Definition strip (s : string) : string := rstrip (lstrip s).

(** [needle in hay] *)
Fixpoint contains (needle hay : string) : bool :=
  prefix needle hay ||
  match hay with
  | EmptyString => false
  | String _ t => contains needle t
  end.

(** [s.split(',')]: never empty, [''.split(',') == ['']]. *)
Fixpoint split_comma (s : string) : list string :=
  match s with
  | EmptyString => [EmptyString]
  | String c t =>
      if Ascii.eqb c ","%char then EmptyString :: split_comma t
      else match split_comma t with
           | h :: r => String c h :: r
           | [] => [String c EmptyString]
           end
  end.

(** [' '.join(l)] *)
Fixpoint join_space (l : list string) : string :=
  match l with
  | [] => EmptyString
  | [s] => s
  | s :: r => s ++ " " ++ join_space r
  end.

Definition is_empty (s : string) : bool :=
  match s with EmptyString => true | _ => false end.

End PyStr.
Import PyStr.

(** ** Data model *)

(** [EducationLevel] of [models/schemas.py]. *)
Inductive EducationLevel :=
| HIGH_SCHOOL | DIPLOMA | UNDERGRADUATE | GRADUATE | POSTGRADUATE.

(** [UserProfile] of [models/schemas.py] (a validated request whose
    [experience_years] is an integer; the schema also lets an explicit
    null through, on which the comparisons of
    [_calculate_experience_score] raise). *)
Record UserProfile := {
  name : string;
  education_level : EducationLevel;
  field_of_study : string;
  skills : list string;
  preferred_sectors : list string;
  preferred_location : string;
  experience_years : Z
}.

(** One row of [internships_df] after [load_data]: the string columns
    that [load_data] fills are plain strings, the ones it leaves alone
    may be missing.  The numeric cells are finite: [duration_months]
    within the range of [int64], [stipend] a finite number or NaN. *)
Record Posting := {
  id : option string;
  title : string;
  company : string;
  sector : string;
  location : string;
  duration_months : Z;
  stipend : option Q;
  description : string;
  required_skills : string;
  education_requirement : string;
  application_deadline : option string;
  combined_features : string
}.

(** ** Sub-scores *)

(** [_calculate_skills_match].  [pd.isna(required_skills)] is false on a
    loaded row ([load_data] fills the column with ['']). *)
Definition norm_skill (s : string) : string := lower (strip s).

Definition skill_hits (skill : string) (user : list string) : bool :=
  existsb (fun user_skill => contains skill user_skill || contains user_skill skill) user.

Definition skill_matches (required user : list string) : nat :=
  List.length (filter (fun skill => skill_hits skill user) required).

Definition _calculate_skills_match (required_skills : string) (user_skills : list string) : Q :=
  let required := map norm_skill (split_comma required_skills) in
  let user := map norm_skill user_skills in
  let matches := skill_matches required user in
  match required with
  | [] => 0
  | _ => (inject_Z (Z.of_nat matches) / inject_Z (Z.of_nat (List.length required))) * 20
  end.

(** [_calculate_experience_score]; the row argument is unused. *)
Definition _calculate_experience_score (row : Posting) (user_experience : Z) : Q :=
  if (user_experience =? 0)%Z then 5
  else if (user_experience <=? 2)%Z then 3
  else 2.

Definition location_score_of (p : UserProfile) (x : string) : Q :=
  if contains (lower (preferred_location p)) (lower x) then 20 else 0.

Definition sector_score_of (p : UserProfile) (x : string) : Q :=
  if existsb (fun s => contains (lower s) (lower x)) (preferred_sectors p) then 15 else 0.

(** ** Scored rows *)

(** A row of [scored_df]: the posting and the columns
    [_score_internships] adds. *)
Record ScoredRow := {
  row : Posting;
  similarity_score : Q;
  location_score : Q;
  sector_score : Q;
  skills_match_score : Q;
  experience_score : Q;
  final_score : Q
}.

(** The [similarity_score] column of [_score_internships] for a frame of
    [n] rows: the scores cut to [n] entries when there are enough of
    them, otherwise the scores followed by zeros. *)
Definition similarity_column (n : nat) (similarity_scores : list Q) : list Q :=
  if (n <=? List.length similarity_scores)%nat
  then firstn n similarity_scores
  else similarity_scores ++ repeat 0 (n - List.length similarity_scores).

(** The weighted sum of [_score_internships]. *)
Definition weighted_sum (sim skl loc sec exp : Q) : Q :=
  sim * 40 + skl * 25 + loc + sec + exp.

(** One row of [scored_df] before sorting. *)
Definition score_row (p : UserProfile) (x : Posting) (sim : Q) : ScoredRow :=
  let loc := location_score_of p (location x) in
  let sec := sector_score_of p (sector x) in
  let skl := _calculate_skills_match (required_skills x) (skills p) in
  let exp := _calculate_experience_score x (experience_years p) in
  {| row := x;
     similarity_score := sim;
     location_score := loc;
     sector_score := sec;
     skills_match_score := skl;
     experience_score := exp;
     final_score := weighted_sum sim skl loc sec exp |}.

(** [scored_df] just before [sort_values]. *)
Definition score_rows (internships_df : list Posting) (p : UserProfile)
           (similarity_scores : list Q) : list ScoredRow :=
  map (fun xs => score_row p (fst xs) (snd xs))
      (combine internships_df
               (similarity_column (List.length internships_df) similarity_scores)).

(** ** Eligibility filter *)

Definition education_mapping (l : EducationLevel) : list string :=
  match l with
  | HIGH_SCHOOL => ["High School"; "Diploma"; "Undergraduate"; "Graduate"; "Postgraduate"]
  | DIPLOMA => ["Diploma"; "Undergraduate"; "Graduate"; "Postgraduate"]
  | UNDERGRADUATE => ["Undergraduate"; "Graduate"; "Postgraduate"]
  | GRADUATE => ["Graduate"; "Postgraduate"]
  | POSTGRADUATE => ["Postgraduate"]
  end.

(** [Series.str.contains('|'.join(pats), case=False)] on one cell, for
    patterns without regular-expression metacharacters: some pattern
    occurs in the cell, letter case ignored. *)
Definition str_contains_any (pats : list string) (cell : string) : bool :=
  existsb (fun pat => contains (lower pat) (lower cell)) pats.

(** The education mask of [_apply_filters] (before the fallback). *)
Definition education_filter (df : list Posting) (p : UserProfile) : list Posting :=
  match education_mapping (education_level p) with
  | [] => df
  | allowed_education =>
      filter (fun x => str_contains_any allowed_education (education_requirement x)) df
  end.

Definition _apply_filters (df : list Posting) (p : UserProfile) : list Posting :=
  let filtered_df := education_filter df p in
  if (List.length filtered_df =? 0)%nat then df else filtered_df.

(** ** Response objects *)

(** [InternshipRecommendation] of [models/schemas.py]. *)
Record InternshipRecommendation := {
  rec_id : string;
  rec_title : string;
  rec_company : string;
  rec_sector : string;
  rec_location : string;
  rec_duration_months : Z;
  rec_stipend : option Z;
  rec_description : string;
  rec_required_skills : list string;
  rec_education_requirement : string;
  rec_application_deadline : option string;
  match_score : Q;
  match_reasons : list string
}.

(** Python [round(x)] to an integer: ties go to the even neighbour. *)
Definition round_half_even (x : Q) : Z :=
  let f := Qfloor x in
  match ((x - inject_Z f) ?= (1 # 2))%Q with
  | Lt => f
  | Gt => (f + 1)%Z
  | Eq => if Z.even f then f else (f + 1)%Z
  end.

(** Python [round(x, 1)]. *)
Definition py_round1 (x : Q) : Q := inject_Z (round_half_even (x * 10)) / 10.

(** [int(float(v))]: truncation towards zero. *)
Definition int_of_float (v : Q) : Z := Z.quot (Qnum v) (Z.pos (Qden v)).

Definition safe_list (value : string) : list string :=
  filter (fun s => negb (is_empty s)) (map strip (split_comma value)).

Definition decimal_of_Z (z : Z) : string :=
  NilZero.string_of_uint (N.to_uint (Z.to_N z)).

Definition reasons_of (r : ScoredRow) : list string :=
  let match_reasons :=
    ((if Qlt_le_dec 10 (skills_match_score r) then ["Strong skills alignment"] else []) ++
     (if Qlt_le_dec 0 (location_score r) then ["Preferred location match"] else []) ++
     (if Qlt_le_dec 0 (sector_score r) then ["Sector preference aligned"] else []) ++
     (if Qlt_le_dec (3 # 10) (similarity_score r) then ["Content similarity high"] else []))%list in
  match match_reasons with
  | [] => ["General compatibility"]
  | _ => match_reasons
  end.

(** The public score of [_create_recommendation_object]. *)
Definition match_score_of (r : ScoredRow) : Q :=
  let max_possible_score := 100 in
  let match_score := Qmin 100 ((final_score r / max_possible_score) * 100) in
  py_round1 (Qmax 0 (Qmin 100 match_score)).

(** ** The public score in double precision

    The scores are Python floats (IEEE 754 binary64).  Where the last
    binary place matters the arithmetic is carried out on the rationals
    that are doubles: [to_double] rounds a rational to the nearest
    double, ties to the even significand (magnitudes in the normal range
    of binary64, which the scores are). *)

Definition pow2 (e : Z) : Q := Qpower 2 e.





(** ** The engine object *)

Inductive exn :=
| PyException (msg : string)   (* [raise Exception(msg)] of the engine itself *)
| LibraryError (what : string) (* an error raised inside pandas / scikit-learn *).

Inductive result (A : Type) :=
| Ok (a : A)
| Raise (e : exn).
Arguments Ok {A} a.
Arguments Raise {A} e.

(** The attributes of [RecommendationEngine].  [skills_vectors] is
    represented by the documents the TF-IDF matrix was fitted on, one
    per matrix row. *)
Record Engine := {
  internships_df : option (list Posting);
  skills_vectors : option (list string);
  is_loaded : bool
}.

(** [RecommendationEngine()] *)
Definition init : Engine :=
  {| internships_df := None; skills_vectors := None; is_loaded := false |}.

(** A method of the engine: it may read and write the attributes and
    either returns or raises. *)
Definition M (A : Type) : Type := Engine -> result A * Engine.

Definition ret {A} (a : A) : M A := fun e => (Ok a, e).
Definition raise {A} (x : exn) : M A := fun e => (Raise x, e).
Definition bind {A B} (m : M A) (k : A -> M B) : M B :=
  fun e => match m e with
           | (Ok a, e') => k a e'
           | (Raise x, e') => (Raise x, e')
           end.
Definition get_self : M Engine := fun e => (Ok e, e).
Definition put_self (e' : Engine) : M unit := fun _ => (Ok tt, e').

Notation "x <- m ;; k" := (bind m (fun x => k))
  (at level 61, m at next level, right associativity).

(** A row as [pd.read_csv(..., dtype=str)] delivers it. *)
Record RawRow := {
  raw_id : option string;
  raw_title : option string;
  raw_company : option string;
  raw_sector : option string;
  raw_location : option string;
  raw_duration_months : option string;
  raw_stipend : option string;
  raw_description : option string;
  raw_required_skills : option string;
  raw_education_requirement : option string;
  raw_application_deadline : option string
}.

Definition fillna {A} (d : A) (v : option A) : A :=
  match v with Some a => a | None => d end.

(** [sorted(l)] for strings, and [Series.unique()]. *)
Fixpoint insert_sorted (s : string) (l : list string) : list string :=
  match l with
  | [] => [s]
  | h :: t => if String.leb s h then s :: l else h :: insert_sorted s t
  end.

Definition sorted (l : list string) : list string := fold_right insert_sorted [] l.

Fixpoint unique (l : list string) : list string :=
  match l with
  | [] => []
  | h :: t => h :: filter (fun s => negb (String.eqb s h)) (unique t)
  end.

Section Engine.

(** [pd.to_numeric(cell, errors='coerce')] on one cell. *)
Variable to_numeric : string -> option Q.

(** Whether [TfidfVectorizer.fit_transform] accepts a corpus (it raises
    [ValueError] on an empty vocabulary). *)
Variable fit_ok : list string -> bool.

(** [cosine_sim corpus q d]: cosine similarity between the TF-IDF vector
    of the query text [q] and that of the document [d], both taken by
    the vectorizer fitted on [corpus]. *)
Variable cosine_sim : list string -> string -> string -> Q.

(** [DataFrame.sort_values('final_score', ascending=False)] with the
    default [kind]. *)
Variable sort_values : list ScoredRow -> list ScoredRow.

(** [hash(str(row))], fixed for the life of the process. *)
Variable py_hash_row : ScoredRow -> Z.

(** The column clean-up of [load_data] and the [combined_features]
    column of [_prepare_features]. *)
Definition load_row (r : RawRow) : Posting :=
  let duration :=
    int_of_float (fillna 3%Q (match raw_duration_months r with
                              | Some s => to_numeric s
                              | None => None
                              end)) in
  let stipend := match raw_stipend r with Some s => to_numeric s | None => None end in
  let title := fillna "Internship Opportunity" (raw_title r) in
  let company := fillna "Company Name" (raw_company r) in
  let sector := fillna "General" (raw_sector r) in
  let location := fillna "Location TBD" (raw_location r) in
  let description := fillna "Description not available" (raw_description r) in
  let required_skills := fillna "" (raw_required_skills r) in
  let education_requirement := fillna "Not specified" (raw_education_requirement r) in
  {| id := raw_id r;
     title := title;
     company := company;
     sector := sector;
     location := location;
     duration_months := duration;
     stipend := stipend;
     description := description;
     required_skills := required_skills;
     education_requirement := education_requirement;
     application_deadline := raw_application_deadline r;
     combined_features := required_skills ++ " " ++ sector ++ " " ++ description |}.

(** [load_data]; [csv] is what [pd.read_csv] yields, [None] when it
    raises.  The frame is assigned before the features are prepared, so
    a failure in [_prepare_features] leaves the new frame in place with
    [is_loaded = False]. *)
Definition load_data (csv : option (list RawRow)) : M unit :=
  self <- get_self ;;
  match csv with
  | None =>
      _ <- put_self {| internships_df := internships_df self;
                       skills_vectors := skills_vectors self;
                       is_loaded := false |} ;;
      raise (LibraryError "read_csv")
  | Some rows =>
      let df := map load_row rows in
      let corpus := map combined_features df in
      if fit_ok corpus then
        put_self {| internships_df := Some df;
                    skills_vectors := Some corpus;
                    is_loaded := true |}
      else
        _ <- put_self {| internships_df := Some df;
                         skills_vectors := skills_vectors self;
                         is_loaded := false |} ;;
        raise (LibraryError "fit_transform")
  end.

(** [_score_internships] *)
Definition _score_internships (internships_df : list Posting) (p : UserProfile)
           (similarity_scores : list Q) : list ScoredRow :=
  sort_values (score_rows internships_df p similarity_scores).

(** [_create_recommendation_object] *)
Definition _create_recommendation_object (r : ScoredRow) (p : UserProfile)
  : InternshipRecommendation :=
  let x := row r in
  {| rec_id := match id x with
               | Some v => strip v
               | None => "INT_" ++ decimal_of_Z (py_hash_row r mod 10000)
               end;
     rec_title := strip (title x);
     rec_company := strip (company x);
     rec_sector := strip (sector x);
     rec_location := strip (location x);
     rec_duration_months := duration_months x;
     rec_stipend := option_map int_of_float (stipend x);
     rec_description := strip (description x);
     rec_required_skills := safe_list (required_skills x);
     rec_education_requirement := strip (education_requirement x);
     rec_application_deadline := option_map strip (application_deadline x);
     match_score := match_score_of r;
     match_reasons := reasons_of r |}.

(** The query text and the similarity vector of [get_recommendations]:
    one score per row of the fitted matrix, in row order. *)
Definition user_skills_text (p : UserProfile) : string :=
  join_space (skills p) ++ " " ++ field_of_study p.

Definition similarity_scores_of (vectors : list string) (p : UserProfile) : list Q :=
  map (cosine_sim vectors (user_skills_text p)) vectors.

(** The candidate frame handed to [sort_values]. *)
Definition scored_candidates (df : list Posting) (vectors : list string)
           (p : UserProfile) : list ScoredRow :=
  score_rows (_apply_filters df p) p (similarity_scores_of vectors p).

(** The body of [get_recommendations] on a loaded engine. *)
Definition recommend (df : list Posting) (vectors : list string) (p : UserProfile)
  : list InternshipRecommendation :=
  let similarity_scores := similarity_scores_of vectors p in
  let filtered_internships := _apply_filters df p in
  let scored_internships := _score_internships filtered_internships p similarity_scores in
  let top_recommendations := firstn 5 scored_internships in
  map (fun r => _create_recommendation_object r p) top_recommendations.

(** [get_recommendations] *)
Definition get_recommendations (p : UserProfile) : M (list InternshipRecommendation) :=
  self <- get_self ;;
  if negb (is_loaded self) then raise (PyException "Data not loaded")
  else match internships_df self, skills_vectors self with
       | Some df, Some vectors => ret (recommend df vectors p)
       | _, _ => raise (LibraryError "NoneType")
       end.

Definition is_data_loaded : M bool :=
  self <- get_self ;; ret (is_loaded self).

Definition get_total_internships : M nat :=
  self <- get_self ;;
  if is_loaded self then
    match internships_df self with
    | Some df => ret (List.length df)
    | None => raise (LibraryError "NoneType")
    end
  else ret 0%nat.

Definition get_available_sectors : M (list string) :=
  self <- get_self ;;
  if negb (is_loaded self) then ret []
  else match internships_df self with
       | Some df => ret (sorted (unique (map sector df)))
       | None => raise (LibraryError "NoneType")
       end.

Definition get_available_locations : M (list string) :=
  self <- get_self ;;
  if negb (is_loaded self) then ret []
  else match internships_df self with
       | Some df => ret (sorted (unique (map location df)))
       | None => raise (LibraryError "NoneType")
       end.

End Engine.

(** ** The HTTP handlers of [app/main.py] *)

(** [fastapi.HTTPException(status_code, detail)] *)
Record HTTPException := {
  status_code : Z;
  detail : string
}.

(** What an [except Exception as e] clause of a handler can catch: an
    [HTTPException] raised in the handler itself, or an exception that
    came out of the engine. *)
Inductive caught :=
| CaughtHTTP (h : HTTPException)
| CaughtExn (x : exn).

(** The body of the [/health] answer. *)
Record Health := {
  health_status : string;
  data_loaded : bool;
  total_internships : nat
}.

Section Main.

Variable to_numeric : string -> option Q.
Variable fit_ok : list string -> bool.
Variable cosine_sim : list string -> string -> string -> Q.
Variable sort_values : list ScoredRow -> list ScoredRow.
Variable py_hash_row : ScoredRow -> Z.

(** [str(e)] in the handlers' f-strings. *)
Variable str_of_exception : caught -> string.

(** [startup_event]: the error of a failed load is printed and dropped. *)
Definition startup_event (csv : option (list RawRow)) (e : Engine) : Engine :=
  snd (load_data to_numeric fit_ok csv e).

(** [health_check]; an exception of the engine would leave the handler
    as it is. *)
Definition health_check : M Health :=
  loaded <- is_data_loaded ;;
  total <- get_total_internships ;;
  ret {| health_status := "healthy"; data_loaded := loaded; total_internships := total |}.

(** The [try] block of the [/recommend] handler. *)
Definition recommend_try (p : UserProfile) (e : Engine)
  : (caught + list InternshipRecommendation) * Engine :=
  match is_data_loaded e with
  | (Raise x, e1) => (inl (CaughtExn x), e1)
  | (Ok false, e1) =>
      (inl (CaughtHTTP
              {| status_code := 503;
                 detail := "Recommendation service is not ready. Please try again later." |}),
       e1)
  | (Ok true, e1) =>
      match get_recommendations cosine_sim sort_values py_hash_row p e1 with
      | (Raise x, e2) => (inl (CaughtExn x), e2)
      | (Ok [], e2) =>
          (inl (CaughtHTTP
                  {| status_code := 404;
                     detail := "No suitable internships found. Please try adjusting your preferences." |}),
           e2)
      | (Ok recommendations, e2) => (inr recommendations, e2)
      end
  end.

(** The [/recommend] handler: whatever the [try] block raises is caught
    by [except Exception] and raised again with status 500. *)
Definition recommend_endpoint (p : UserProfile) (e : Engine)
  : (HTTPException + list InternshipRecommendation) * Engine :=
  match recommend_try p e with
  | (inl c, e') =>
      (inl {| status_code := 500;
              detail := "Failed to generate recommendations: " ++ str_of_exception c |}, e')
  | (inr recommendations, e') => (inr recommendations, e')
  end.

(** The [/sectors] and [/locations] handlers. *)
Definition sectors_endpoint (e : Engine) : (HTTPException + list string) * Engine :=
  match get_available_sectors e with
  | (Ok sectors, e') => (inr sectors, e')
  | (Raise x, e') =>
      (inl {| status_code := 500;
              detail := "Failed to fetch sectors: " ++ str_of_exception (CaughtExn x) |}, e')
  end.

Definition locations_endpoint (e : Engine) : (HTTPException + list string) * Engine :=
  match get_available_locations e with
  | (Ok locations, e') => (inr locations, e')
  | (Raise x, e') =>
      (inl {| status_code := 500;
              detail := "Failed to fetch locations: " ++ str_of_exception (CaughtExn x) |}, e')
  end.

(** The states the engine object of [main.py] can be in: it is created
    once, and only [load_data] writes its attributes. *)
Inductive reachable : Engine -> Prop :=
| reach_init : reachable init
| reach_load (csv : option (list RawRow)) (e : Engine) :
    reachable e -> reachable (snd (load_data to_numeric fit_ok csv e)).

End Main.

(** ** Vocabulary of the specification *)

(** The order of the levels and the name a requirement text uses for
    each, as the specification gives them. *)
Definition level_rank (l : EducationLevel) : nat :=
  match l with
  | HIGH_SCHOOL => 0 | DIPLOMA => 1 | UNDERGRADUATE => 2 | GRADUATE => 3 | POSTGRADUATE => 4
  end.

Definition level_name (l : EducationLevel) : string :=
  match l with
  | HIGH_SCHOOL => "High School"
  | DIPLOMA => "Diploma"
  | UNDERGRADUATE => "Undergraduate"
  | GRADUATE => "Graduate"
  | POSTGRADUATE => "Postgraduate"
  end.

(** [mentions l x]: the requirement text of [x] contains the name of
    [l], letter case ignored. *)
Definition mentions (l : EducationLevel) (x : Posting) : Prop :=
  contains (lower (level_name l)) (lower (education_requirement x)) = true.

Definition eligible (l : EducationLevel) (x : Posting) : Prop :=
  exists l', (level_rank l <= level_rank l')%nat /\ mentions l' x.


(** What the specification asks of the ranking sort: the rows are
    rearranged into non-increasing [final_score]. *)
Definition descending (l : list ScoredRow) : Prop :=
  StronglySorted (fun a b => (final_score b <= final_score a)%Q) l.

Definition sort_values_contract (sv : list ScoredRow -> list ScoredRow) : Prop :=
  forall l, Permutation l (sv l) /\ descending (sv l).

(** The profile [p] with the skills list [l] in place of its own. *)
Definition with_skills (p : UserProfile) (l : list string) : UserProfile :=
  {| name := name p;
     education_level := education_level p;
     field_of_study := field_of_study p;
     skills := l;
     preferred_sectors := preferred_sectors p;
     preferred_location := preferred_location p;
     experience_years := experience_years p |}.

(** ** Sample data *)

Module Demo.

Definition posting (i sec loc skl edu : string) : Posting :=
  {| id := Some i;
     title := "Software Development Intern";
     company := "Tech Innovations Pvt Ltd";
     sector := sec;
     location := loc;
     duration_months := 6;
     stipend := Some (inject_Z 15000);
     description := "Backend";
     required_skills := skl;
     education_requirement := edu;
     application_deadline := None;
     combined_features := skl ++ " " ++ sec ++ " " ++ "Backend" |}.

Definition profile (l : EducationLevel) (skl : list string) : UserProfile :=
  {| name := "Rahul Sharma";
     education_level := l;
     field_of_study := "Economics";
     skills := skl;
     preferred_sectors := ["Technology"];
     preferred_location := "Delhi";
     experience_years := 0 |}.

Definition unspecified : Posting :=
  posting "INT000" "General" "Location TBD" "" "Not specified".
Definition school_java : Posting :=
  posting "INT001" "Technology" "Delhi" "Java" "High School".
Definition postgrad_python : Posting :=
  posting "INT002" "Technology" "Delhi" "Python" "Postgraduate".
Definition web : Posting :=
  posting "INT003" "Technology" "Delhi" "Python,React" "Undergraduate".

Definition web_again : Posting :=
  posting "INT004" "Technology" "Delhi" "Python,React" "Undergraduate".


Definition postgraduate_student : UserProfile := profile POSTGRADUATE ["Python"].
Definition sales_student : UserProfile := profile UNDERGRADUATE ["Sales"].

(** A query that shares no term with any document: every cosine is 0. *)
Definition no_overlap : list string -> string -> string -> Q := fun _ _ _ => 0%Q.

Definition hash0 : ScoredRow -> Z := fun _ => 0%Z.

(** The cosines against the one-document corpus
    ["Python,React Technology Backend"] (document vector (1,1,1,1)/2):
    the query "Python React Economics" has vector (1,1,0,0)/sqrt 2 and
    cosine 1/sqrt 2, about 0.7071; the query
    "Python React Python Economics" has vector (2,1,0,0)/sqrt 5 and
    cosine 3/(2 sqrt 5), about 0.6708. *)
Definition repeated_skill_cosine : list string -> string -> string -> Q :=
  fun _ q _ =>
    if String.eqb q "Python React Economics" then (7071 # 10000)%Q
    else if String.eqb q "Python React Python Economics" then (6708 # 10000)%Q
    else 0%Q.

(** A reader that finds no number in any cell, a vectorizer that
    rejects the empty corpus only, and a blank rendering of exceptions. *)
Definition to_numeric_none : string -> option Q := fun _ => None.
Definition fit_nonempty : list string -> bool :=
  fun corpus => match corpus with [] => false | _ => true end.
Definition str_blank : caught -> string := fun _ => "".

Definition raw_web : RawRow :=
  {| raw_id := Some "INT003";
     raw_title := Some "Software Development Intern";
     raw_company := None;
     raw_sector := Some "Technology";
     raw_location := Some "Delhi";
     raw_duration_months := Some "6";
     raw_stipend := None;
     raw_description := Some "Backend";
     raw_required_skills := Some "Python,React";
     raw_education_requirement := Some "Undergraduate";
     raw_application_deadline := None |}.

(** The engine after a first load of the one-row catalog. *)
Definition loaded_web : Engine :=
  snd (load_data to_numeric_none fit_nonempty (Some [raw_web]) init).

(** An engine whose load succeeded on a catalog without rows. *)
Definition loaded_empty : Engine :=
  {| internships_df := Some []; skills_vectors := Some []; is_loaded := true |}.

(** An ordering that [sort_values_contract] admits: insertion into a
    descending list, a new row going in front of the first row that
    [goes_before] lets it pass. *)
Fixpoint insert_desc (goes_before : Q -> Q -> bool) (r : ScoredRow) (l : list ScoredRow)
  : list ScoredRow :=
  match l with
  | [] => [r]
  | h :: t => if goes_before (final_score r) (final_score h)
              then r :: l else h :: insert_desc goes_before r t
  end.

Definition sort_desc (goes_before : Q -> Q -> bool) (l : list ScoredRow) : list ScoredRow :=
  fold_right (insert_desc goes_before) [] l.

(** Rows of equal score keep their order. *)
Definition sort_ties_kept : list ScoredRow -> list ScoredRow :=
  sort_desc (fun a b => Qle_bool b a).

End Demo.
(** * Properties *)

Local Open Scope Q_scope.

(** ** Skills match *)

Lemma split_comma_nonempty (s : string) : split_comma s <> [].
Proof.
  destruct s as [|c t]; simpl; [discriminate|].
  destruct (Ascii.eqb c ","%char); [discriminate|].
  destruct (split_comma t); discriminate.
Qed.

Lemma contains_empty (hay : string) : contains "" hay = true.
Proof. destruct hay; reflexivity. Qed.

(** A required entry that is empty after normalisation is matched by
    any user skill. *)
Lemma skill_hits_empty (u : string) (user : list string) :
  skill_hits "" (u :: user) = true.
Proof. unfold skill_hits; simpl. now rewrite contains_empty. Qed.

(** The value of [_calculate_skills_match] in terms of the entries of
    [required_skills.split(',')]. *)
Lemma skills_match_formula (required_skills : string) (user_skills : list string) :
  let required := map norm_skill (split_comma required_skills) in
  _calculate_skills_match required_skills user_skills ==
  inject_Z (Z.of_nat (skill_matches required (map norm_skill user_skills)))
  / inject_Z (Z.of_nat (List.length required)) * 20.
Proof.
  intros required. unfold _calculate_skills_match. fold required.
  destruct required eqn:E; [|reflexivity].
  exfalso. unfold required in E.
  apply map_eq_nil in E. now apply split_comma_nonempty in E.
Qed.

(** With an empty [required_skills] cell the list of split entries is
    [['']], and the score is the full 20 for any user with a skill. *)
Lemma skills_match_no_required (u : string) (user : list string) :
  _calculate_skills_match "" (u :: user) == 20.
Proof.
  unfold _calculate_skills_match, skill_matches. cbn [split_comma map norm_skill].
  change (lower (strip "")) with "".
  cbn [filter]. rewrite skill_hits_empty. reflexivity.
Qed.

(** C3, at the failing input.  A catalog row whose [required_skills]
    cell is missing is loaded with the empty string; the posting then
    lists no required skill ([safe_list] returns the empty list), yet
    [_calculate_skills_match] gives it 20 against the user skills
    [["Python"]], where the specification says 0. *)
Theorem skills_match_empty_required_is_20 (to_numeric : string -> option Q) :
  let raw := {| raw_id := Some "INT001"; raw_title := None; raw_company := None;
                raw_sector := None; raw_location := None;
                raw_duration_months := None; raw_stipend := None;
                raw_description := None; raw_required_skills := None;
                raw_education_requirement := None;
                raw_application_deadline := None |} in
  let x := load_row to_numeric raw in
  required_skills x = ""%string /\
  safe_list (required_skills x) = [] /\
  _calculate_skills_match (required_skills x) ["Python"%string] == 20 /\
  skills_match_score
    (score_row {| name := "Test User"; education_level := UNDERGRADUATE;
                  field_of_study := "Computer Science"; skills := ["Python"%string];
                  preferred_sectors := ["Technology"%string];
                  preferred_location := "Delhi"; experience_years := 0 |} x 0) == 20.
Proof.
  cbv zeta. cbn [load_row raw_required_skills fillna required_skills].
  repeat split; try reflexivity.
Qed.

(** The single-row scenario of the specification: a posting in Delhi,
    sector Technology, requiring "Python,React", against a profile with
    the one skill Python. *)
Example scenario_single_row :
  let r := score_row (Demo.profile UNDERGRADUATE ["Python"%string]) Demo.web 0 in
  split_comma (required_skills Demo.web) = ["Python"; "React"]%string /\
  location_score r == 20 /\ sector_score r == 15 /\ skills_match_score r == 10 /\
  reasons_of r = ["Preferred location match"; "Sector preference aligned"]%string /\
  match_score_of r == 100.
Proof. cbv zeta. repeat split. Qed.

Example strip_lower_sample : norm_skill "  Data Analysis " = "data analysis"%string.
Proof. reflexivity. Qed.

Example split_trailing_comma : split_comma "Python," = ["Python"; ""]%string.
Proof. reflexivity. Qed.

Example round_ties_to_even :
  py_round1 (25 # 100) == 2 # 10 /\ py_round1 (35 # 100) == 4 # 10 /\
  py_round1 (5678 # 100) == 568 # 10.
Proof. repeat split. Qed.

Example sectors_sorted_unique :
  sorted (unique ["Technology"; "Finance"; "Technology"; "Healthcare"])
  = ["Finance"; "Healthcare"; "Technology"]%string.
Proof. reflexivity. Qed.

(** ** Experience score *)





(** ** Education eligibility *)

(** The table of [_apply_filters] lists the names of the levels at or
    above the profile's. *)
Lemma education_mapping_spec (l : EducationLevel) (n : string) :
  In n (education_mapping l) <->
  exists l', (level_rank l <= level_rank l')%nat /\ n = level_name l'.
Proof.
  split.
  - destruct l; simpl; intros H;
      repeat (destruct H as [<-|H];
              [first [ exists HIGH_SCHOOL; split; [simpl; lia|reflexivity]
                     | exists DIPLOMA; split; [simpl; lia|reflexivity]
                     | exists UNDERGRADUATE; split; [simpl; lia|reflexivity]
                     | exists GRADUATE; split; [simpl; lia|reflexivity]
                     | exists POSTGRADUATE; split; [simpl; lia|reflexivity] ]|]);
      contradiction.
  - intros (l' & Hle & ->). destruct l, l'; simpl in *; try lia; tauto.
Qed.

Lemma str_contains_any_eligible (l : EducationLevel) (x : Posting) :
  str_contains_any (education_mapping l) (education_requirement x) = true <->
  eligible l x.
Proof.
  unfold str_contains_any, eligible, mentions. rewrite existsb_exists. split.
  - intros (n & Hin & Hc). apply education_mapping_spec in Hin.
    destruct Hin as (l' & Hle & ->). now exists l'.
  - intros (l' & Hle & Hc). exists (level_name l'). split; [|exact Hc].
    apply education_mapping_spec. now exists l'.
Qed.

Lemma education_filter_is_filter (df : list Posting) (p : UserProfile) :
  education_filter df p =
  filter (fun x => str_contains_any (education_mapping (education_level p))
                                    (education_requirement x)) df.
Proof. unfold education_filter. now destruct (education_level p). Qed.

Lemma education_filter_In (df : list Posting) (p : UserProfile) (x : Posting) :
  In x (education_filter df p) <-> In x df /\ eligible (education_level p) x.
Proof.
  rewrite education_filter_is_filter, filter_In, str_contains_any_eligible. tauto.
Qed.

(** C4.  The education mask keeps a posting exactly when its requirement
    text contains, letter case ignored, the name of the profile's level
    or of a higher one; for a high-school profile that is any of the five
    names, for a postgraduate profile only "Postgraduate". *)
Theorem education_filter_keeps_eligible (df : list Posting) (p : UserProfile) (x : Posting) :
  (In x (education_filter df p) <-> In x df /\ eligible (education_level p) x) /\
  (eligible HIGH_SCHOOL x <->
   mentions HIGH_SCHOOL x \/ mentions DIPLOMA x \/ mentions UNDERGRADUATE x \/
   mentions GRADUATE x \/ mentions POSTGRADUATE x) /\
  (eligible POSTGRADUATE x <-> mentions POSTGRADUATE x).
Proof.
  split; [|split].
  - apply education_filter_In.
  - split.
    + intros (l' & _ & H). destruct l'; tauto.
    + intros H. decompose [or] H;
        [exists HIGH_SCHOOL|exists DIPLOMA|exists UNDERGRADUATE|exists GRADUATE|exists POSTGRADUATE];
        (split; [simpl; lia|assumption]).
  - split.
    + intros (l' & Hle & H). destruct l'; simpl in Hle; try lia. exact H.
    + intros H. exists POSTGRADUATE. split; [simpl; lia|exact H].
Qed.

(** The whole of [_apply_filters]: a posting of the catalog is kept when
    it is eligible, or when no posting of the catalog is. *)
Lemma apply_filters_In (df : list Posting) (p : UserProfile) (x : Posting) :
  In x (_apply_filters df p) <->
  In x df /\ (eligible (education_level p) x \/
              forall y, In y df -> ~ eligible (education_level p) y).
Proof.
  unfold _apply_filters.
  destruct (education_filter df p) as [|z l] eqn:E; cbn [List.length Nat.eqb].
  - assert (Hno : forall y, In y df -> ~ eligible (education_level p) y).
    { intros y Hy He.
      assert (Hin : In y (education_filter df p)) by now apply education_filter_In.
      rewrite E in Hin. exact Hin. }
    split; [intros H; split; [exact H|right; exact Hno]|tauto].
  - rewrite <- E. rewrite education_filter_In.
    split; [tauto|]. intros [Hin [He|Hno]]; [tauto|].
    exfalso. assert (Hz : In z (education_filter df p)) by (rewrite E; now left).
    apply education_filter_In in Hz.
    destruct Hz as [Hz1 Hz2]. exact (Hno z Hz1 Hz2).
Qed.

(** C5.  When the education mask leaves no row of a non-empty catalog,
    [_apply_filters] hands back the whole catalog, rows in catalog
    order, so the candidate set is not empty. *)
Theorem apply_filters_fallback (df : list Posting) (p : UserProfile) :
  df <> [] ->
  education_filter df p = [] ->
  _apply_filters df p = df /\ _apply_filters df p <> [].
Proof.
  intros Hne E. unfold _apply_filters. rewrite E. split; [reflexivity|exact Hne].
Qed.

Lemma apply_filters_fallback_witness :
  _apply_filters [Demo.unspecified] Demo.postgraduate_student = [Demo.unspecified].
Proof.
  refine (proj1 (apply_filters_fallback [Demo.unspecified] Demo.postgraduate_student _ _)).
  - discriminate.
  - reflexivity.
Defined.

(** No profile empties a non-empty catalog. *)
Lemma apply_filters_nonempty (df : list Posting) (p : UserProfile) :
  df <> [] -> _apply_filters df p <> [].
Proof.
  intros Hne. unfold _apply_filters.
  destruct (education_filter df p); cbn [List.length Nat.eqb]; [exact Hne|discriminate].
Qed.

(** ** The public score *)

Lemma round_half_even_lower (x : Q) : (Qfloor x <= round_half_even x)%Z.
Proof.
  unfold round_half_even.
  destruct (x - inject_Z (Qfloor x) ?= 1 # 2); [destruct (Z.even _)| |]; lia.
Qed.

Lemma round_half_even_upper (x : Q) : (round_half_even x <= Qfloor x + 1)%Z.
Proof.
  unfold round_half_even.
  destruct (x - inject_Z (Qfloor x) ?= 1 # 2); [destruct (Z.even _)| |]; lia.
Qed.

#[local] Instance round_half_even_comp : Proper (Qeq ==> eq) round_half_even.
Proof.
  intros x y E. unfold round_half_even.
  rewrite (Qfloor_comp _ _ E).
  assert (E' : x - inject_Z (Qfloor y) == y - inject_Z (Qfloor y)) by now rewrite E.
  now rewrite (Qcompare_comp _ _ E' (1 # 2) (1 # 2) (Qeq_refl _)).
Qed.

#[local] Instance py_round1_comp : Proper (Qeq ==> Qeq) py_round1.
Proof.
  intros x y E. unfold py_round1.
  assert (E' : x * 10 == y * 10) by now rewrite E.
  now rewrite (round_half_even_comp _ _ E').
Qed.

(** Rounding never swaps two numbers. *)
Lemma round_half_even_mono (x y : Q) : x <= y -> (round_half_even x <= round_half_even y)%Z.
Proof.
  intros Hxy.
  pose proof (Qfloor_resp_le _ _ Hxy) as Hf.
  destruct (Z.eq_dec (Qfloor x) (Qfloor y)) as [Ef|Nf].
  - unfold round_half_even. rewrite <- Ef.
    destruct (Qcompare_spec (x - inject_Z (Qfloor x)) (1 # 2)) as [Ex|Lx|Gx];
      destruct (Qcompare_spec (y - inject_Z (Qfloor x)) (1 # 2)) as [Ey|Ly|Gy];
      try (destruct (Z.even (Qfloor x))); try lia; exfalso; lra.
  - pose proof (round_half_even_upper x). pose proof (round_half_even_lower y). lia.
Qed.

Lemma py_round1_mono (x y : Q) : x <= y -> py_round1 x <= py_round1 y.
Proof.
  intros Hxy. unfold py_round1.
  assert (H10 : x * 10 <= y * 10) by lra.
  apply round_half_even_mono in H10.
  apply Qmult_le_compat_r; [|discriminate].
  now rewrite <- Zle_Qle.
Qed.

(** The score before rounding is the final score cut to [0, 100]. *)
Lemma match_score_clamp (r : ScoredRow) :
  match_score_of r == py_round1 (Qmax 0 (Qmin 100 (final_score r))).
Proof.
  unfold match_score_of. apply py_round1_comp.
  assert (E : final_score r / 100 * 100 == final_score r) by (field; discriminate).
  rewrite E, Q.min_assoc, Q.min_id. reflexivity.
Qed.

Lemma match_score_mono (r1 r2 : ScoredRow) :
  final_score r1 <= final_score r2 -> match_score_of r1 <= match_score_of r2.
Proof.
  intros H. rewrite !match_score_clamp. apply py_round1_mono.
  apply Q.max_le_compat_l, Q.min_le_compat_l, H.
Qed.


(** The weighted sum does go past 100: a full skills match alone
    contributes 500. *)
Lemma final_score_exceeds_100 :
  final_score (score_row (Demo.profile UNDERGRADUATE ["Python"; "React"]) Demo.web 0) == 540.
Proof. reflexivity. Qed.

(** ** Double precision *)


Lemma pow2_pred (e : Z) : pow2 (e - 1) == pow2 e / 2.
Proof. unfold pow2. rewrite Qpower_minus by discriminate. reflexivity. Qed.











(** ** Ranking *)

Section SortDesc.

Variable goes_before : Q -> Q -> bool.
Hypothesis goes_before_true : forall a b, goes_before a b = true -> b <= a.
Hypothesis goes_before_false : forall a b, goes_before a b = false -> a <= b.

Lemma insert_desc_perm (r : ScoredRow) (l : list ScoredRow) :
  Permutation (r :: l) (Demo.insert_desc goes_before r l).
Proof.
  induction l as [|h t IH]; simpl; [reflexivity|].
  destruct (goes_before _ _); [reflexivity|].
  rewrite perm_swap. now apply perm_skip.
Qed.

Lemma insert_desc_descending (r : ScoredRow) (l : list ScoredRow) :
  descending l -> descending (Demo.insert_desc goes_before r l).
Proof.
  unfold descending. induction 1 as [|h t Hs IH Hall]; simpl.
  - constructor; constructor.
  - destruct (goes_before _ _) eqn:E.
    + apply goes_before_true in E.
      constructor; [now constructor|]. constructor; [exact E|].
      eapply Forall_impl; [|exact Hall]. intros a Ha. simpl in Ha.
      eapply Qle_trans; eassumption.
    + apply goes_before_false in E. constructor; [exact IH|].
      eapply Permutation_Forall; [apply insert_desc_perm|].
      now constructor.
Qed.

Lemma sort_desc_contract : sort_values_contract (Demo.sort_desc goes_before).
Proof.
  intros l. unfold Demo.sort_desc. induction l as [|r l [IHp IHd]]; simpl.
  - split; [reflexivity|constructor].
  - split.
    + rewrite <- insert_desc_perm. now apply perm_skip.
    + now apply insert_desc_descending.
Qed.

End SortDesc.

Lemma sort_ties_kept_contract : sort_values_contract Demo.sort_ties_kept.
Proof.
  apply sort_desc_contract; intros a b H.
  - now apply Qle_bool_iff.
  - destruct (Qlt_le_dec a b) as [Hlt|Hle]; [now apply Qlt_le_weak|].
    apply Qle_bool_iff in Hle. congruence.
Qed.

Lemma similarity_column_length (n : nat) (sims : list Q) :
  List.length (similarity_column n sims) = n.
Proof.
  unfold similarity_column. destruct (Nat.leb_spec n (List.length sims)).
  - apply firstn_length_le. assumption.
  - rewrite length_app, repeat_length. lia.
Qed.

Lemma score_rows_length (df : list Posting) (p : UserProfile) (sims : list Q) :
  List.length (score_rows df p sims) = List.length df.
Proof.
  unfold score_rows. rewrite length_map, length_combine, similarity_column_length. lia.
Qed.

Lemma firstn_In {A} (n : nat) (l : list A) (a : A) : In a (firstn n l) -> In a l.
Proof.
  revert l. induction n as [|n IH]; intros [|h t]; simpl; try tauto.
  intros [->|H]; [now left|right; now apply IH].
Qed.

Lemma descending_firstn (n : nat) (l : list ScoredRow) :
  descending l -> descending (firstn n l).
Proof.
  unfold descending. intros H. revert n.
  induction H as [|h t Hs IH Hall]; intros [|n]; simpl; try constructor.
  - apply IH.
  - apply Forall_forall. intros a Ha. apply firstn_In in Ha.
    revert a Ha. now apply Forall_forall.
Qed.

Lemma descending_match_score (py_hash_row : ScoredRow -> Z) (p : UserProfile)
      (l : list ScoredRow) :
  descending l ->
  StronglySorted (fun a b => match_score b <= match_score a)
                 (map (fun r => _create_recommendation_object py_hash_row r p) l).
Proof.
  unfold descending. induction 1 as [|h t Hs IH Hall]; simpl; constructor.
  - exact IH.
  - apply Forall_map. eapply Forall_impl; [|exact Hall].
    intros a Ha. simpl. now apply match_score_mono.
Qed.

(** X26.  Whatever rearrangement into non-increasing
    [final_score] the library sort produces, [recommend] returns the
    response objects of its first five rows (all of them when there are
    fewer candidates): at most five items, in non-increasing
    [final_score] and hence non-increasing [match_score], each one a
    scored candidate. *)
Theorem recommend_top5_descending
        (cosine_sim : list string -> string -> string -> Q)
        (sort_values : list ScoredRow -> list ScoredRow)
        (py_hash_row : ScoredRow -> Z)
        (df : list Posting) (vectors : list string) (p : UserProfile) :
  sort_values_contract sort_values ->
  let out := recommend cosine_sim sort_values py_hash_row df vectors p in
  (List.length out <= 5)%nat /\
  List.length out = Nat.min 5 (List.length (_apply_filters df p)) /\
  StronglySorted (fun a b => match_score b <= match_score a) out /\
  exists top,
    out = map (fun r => _create_recommendation_object py_hash_row r p) top /\
    descending top /\
    forall r, In r top -> In r (scored_candidates cosine_sim df vectors p).
Proof.
  intros Hsv out. unfold recommend, _score_internships in out.
  set (scored := score_rows (_apply_filters df p) p (similarity_scores_of cosine_sim vectors p)) in *.
  destruct (Hsv scored) as [Hperm Hdesc].
  assert (Hlen : List.length out = Nat.min 5 (List.length (_apply_filters df p))).
  { unfold out. rewrite length_map, length_firstn.
    rewrite <- (Permutation_length Hperm). unfold scored. now rewrite score_rows_length. }
  split; [lia|]. split; [exact Hlen|]. split.
  - apply descending_match_score, descending_firstn, Hdesc.
  - exists (firstn 5 (sort_values scored)). split; [reflexivity|]. split.
    + apply descending_firstn, Hdesc.
    + intros r Hr. apply firstn_In in Hr.
      eapply Permutation_in; [symmetry; exact Hperm|exact Hr].
Qed.

Lemma recommend_top5_descending_witness :
  (List.length (recommend Demo.no_overlap Demo.sort_ties_kept Demo.hash0
                          [Demo.web; Demo.web_again]
                          (map combined_features [Demo.web; Demo.web_again])
                          Demo.sales_student) <= 5)%nat.
Proof.
  refine (proj1 (recommend_top5_descending Demo.no_overlap Demo.sort_ties_kept Demo.hash0
                   [Demo.web; Demo.web_again]
                   (map combined_features [Demo.web; Demo.web_again])
                   Demo.sales_student _)).
  exact sort_ties_kept_contract.
Defined.

(** ** The engine's methods *)

Section Methods.

Variable to_numeric : string -> option Q.
Variable fit_ok : list string -> bool.
Variable cosine_sim : list string -> string -> string -> Q.
Variable sort_values : list ScoredRow -> list ScoredRow.
Variable py_hash_row : ScoredRow -> Z.

Local Abbreviation get_recs := (get_recommendations cosine_sim sort_values py_hash_row).

(** [load_data] either raises and leaves the engine not loaded, or
    returns with the engine loaded, the frame and the fitted matrix in
    step. *)
Lemma load_data_outcome (csv : option (list RawRow)) (e : Engine) :
  let e' := snd (load_data to_numeric fit_ok csv e) in
  match fst (load_data to_numeric fit_ok csv e) with
  | Raise _ => is_loaded e' = false
  | Ok _ => is_loaded e' = true /\
            exists df, internships_df e' = Some df /\
                       skills_vectors e' = Some (map combined_features df)
  end.
Proof.
  unfold load_data, bind, get_self, put_self, raise. destruct csv as [rows|]; simpl.
  - destruct (fit_ok _); simpl; [|reflexivity].
    split; [reflexivity|]. eexists; split; reflexivity.
  - reflexivity.
Qed.

(** C8, as the code has it.  On an engine that is not loaded
    [get_recommendations] raises "Data not loaded", which is not the
    empty answer of a loaded engine, while [get_total_internships]
    returns 0 and [get_available_sectors], [get_available_locations]
    return the empty list; none of them changes the engine. *)
Theorem not_loaded_behaviour (p : UserProfile) (e : Engine) :
  is_loaded e = false ->
  get_recs p e = (Raise (PyException "Data not loaded"), e) /\
  fst (get_recs p e) <> Ok [] /\
  get_total_internships e = (Ok 0%nat, e) /\
  get_available_sectors e = (Ok [], e) /\
  get_available_locations e = (Ok [], e).
Proof.
  intros H.
  unfold get_recommendations, get_total_internships, get_available_sectors,
    get_available_locations, bind, get_self, raise, ret.
  rewrite H. simpl. repeat split. discriminate.
Qed.

End Methods.

Lemma not_loaded_behaviour_witness :
  is_loaded init = false /\
  get_recommendations Demo.no_overlap Demo.sort_ties_kept Demo.hash0
                      Demo.sales_student init
  = (Raise (PyException "Data not loaded"), init).
Proof.
  split; [reflexivity|].
  refine (proj1 (not_loaded_behaviour Demo.no_overlap Demo.sort_ties_kept Demo.hash0
                                      Demo.sales_student init _)).
  reflexivity.
Defined.

(** C8, as stated, fails.  On the engine before any load the auxiliary
    queries return ordinary values, not an error, and the very values a
    loaded engine returns for a catalog without rows. *)
Lemma auxiliary_queries_return_when_not_loaded :
  is_loaded init = false /\
  fst (get_total_internships init) = Ok 0%nat /\
  fst (get_available_sectors init) = Ok [] /\
  fst (get_available_locations init) = Ok [] /\
  fst (get_total_internships init) = fst (get_total_internships Demo.loaded_empty) /\
  fst (get_available_sectors init) = fst (get_available_sectors Demo.loaded_empty) /\
  fst (get_available_locations init) = fst (get_available_locations Demo.loaded_empty).
Proof. repeat split. Qed.

(** ** Alignment of the similarity column *)

Lemma similarity_column_exact (sims : list Q) :
  similarity_column (List.length sims) sims = sims.
Proof.
  unfold similarity_column. rewrite Nat.leb_refl. apply firstn_all.
Qed.

Lemma score_rows_aligned (p : UserProfile) (df : list Posting) (f : Posting -> Q) :
  score_rows df p (map f df) = map (fun x => score_row p x (f x)) df.
Proof.
  unfold score_rows.
  rewrite <- (length_map f df) at 1. rewrite similarity_column_exact.
  induction df as [|x df IH]; simpl; [reflexivity|]. now rewrite IH.
Qed.

(** X27.  When the fitted matrix is that of the catalog and the filter
    hands on the whole catalog, the candidates are the catalog rows in
    order and each carries the cosine of its own record. *)
Theorem similarity_aligned_when_unfiltered
        (cosine_sim : list string -> string -> string -> Q)
        (df : list Posting) (vectors : list string) (p : UserProfile) :
  vectors = map combined_features df ->
  _apply_filters df p = df ->
  let scored := scored_candidates cosine_sim df vectors p in
  map row scored = df /\
  map similarity_score scored =
    map (fun x => cosine_sim vectors (user_skills_text p) (combined_features x)) df.
Proof.
  intros Hv Hf scored. unfold scored, scored_candidates, similarity_scores_of.
  rewrite Hf, Hv, map_map, score_rows_aligned, !map_map. cbn [row similarity_score score_row].
  split; [apply map_id|reflexivity].
Qed.

Lemma similarity_aligned_when_unfiltered_witness :
  map row (scored_candidates Demo.no_overlap [Demo.web; Demo.web_again]
                             (map combined_features [Demo.web; Demo.web_again])
                             Demo.sales_student)
  = [Demo.web; Demo.web_again].
Proof.
  refine (proj1 (similarity_aligned_when_unfiltered Demo.no_overlap
                   [Demo.web; Demo.web_again]
                   (map combined_features [Demo.web; Demo.web_again])
                   Demo.sales_student _ _)); reflexivity.
Defined.

(** C1, at the failing input.  The catalog holds [school_java] then
    [postgrad_python]; a postgraduate profile keeps the second only.
    The similarity vector has one score per catalog row; its first
    entry, the cosine of the dropped [school_java], is what the kept
    [postgrad_python] carries, whatever the cosines are. *)
Theorem similarity_of_dropped_row (cosine_sim : list string -> string -> string -> Q) :
  let df := [Demo.school_java; Demo.postgrad_python] in
  let vectors := map combined_features df in
  let p := Demo.postgraduate_student in
  let cosine := cosine_sim vectors (user_skills_text p) in
  similarity_scores_of cosine_sim vectors p =
    [cosine (combined_features Demo.school_java);
     cosine (combined_features Demo.postgrad_python)] /\
  _apply_filters df p = [Demo.postgrad_python] /\
  map row (scored_candidates cosine_sim df vectors p) = [Demo.postgrad_python] /\
  map similarity_score (scored_candidates cosine_sim df vectors p) =
    [cosine (combined_features Demo.school_java)].
Proof.
  cbv zeta. repeat split.
Qed.

(** ** Adding a skill *)

Lemma skill_hits_incl (skill : string) (user user' : list string) :
  incl user user' -> skill_hits skill user = true -> skill_hits skill user' = true.
Proof.
  unfold skill_hits. rewrite !existsb_exists.
  intros Hincl (u & Hu & H). exists u. split; [now apply Hincl|exact H].
Qed.

Lemma filter_length_le {A} (f g : A -> bool) (l : list A) :
  (forall a, f a = true -> g a = true) ->
  (List.length (filter f l) <= List.length (filter g l))%nat.
Proof.
  intros Hfg. induction l as [|a l IH]; simpl; [lia|].
  destruct (f a) eqn:Ef.
  - rewrite (Hfg a Ef). simpl. lia.
  - destruct (g a); simpl; lia.
Qed.

(** More user skills never lower the skills match. *)
Lemma skills_match_incl (required_skills : string) (user user' : list string) :
  incl user user' ->
  _calculate_skills_match required_skills user <=
  _calculate_skills_match required_skills user'.
Proof.
  intros Hincl. unfold _calculate_skills_match.
  destruct (map norm_skill (split_comma required_skills)) as [|r0 required] eqn:E;
    [apply Qle_refl|].
  apply Qmult_le_compat_r; [|discriminate].
  apply Qmult_le_compat_r.
  - rewrite <- Zle_Qle. apply Nat2Z.inj_le. unfold skill_matches.
    apply filter_length_le. intros a. apply skill_hits_incl.
    now apply incl_map.
  - apply Qinv_le_0_compat. change 0 with (inject_Z 0). rewrite <- Zle_Qle. lia.
Qed.

Lemma score_rows_nth (df : list Posting) (p : UserProfile) (sims : list Q)
      (i : nat) (r : ScoredRow) :
  nth_error (score_rows df p sims) i = Some r ->
  exists x, nth_error df i = Some x /\ r = score_row p x (similarity_score r).
Proof.
  unfold score_rows. generalize (similarity_column (List.length df) sims) as col.
  revert i. induction df as [|x df IH]; intros [|i] [|s col]; simpl; try discriminate.
  - intros [= <-]. exists x. split; reflexivity.
  - apply IH.
Qed.

Lemma weighted_sum_le (sim sim' skl skl' loc sec exp : Q) :
  sim <= sim' -> skl <= skl' ->
  weighted_sum sim skl loc sec exp <= weighted_sum sim' skl' loc sec exp.
Proof. unfold weighted_sum. intros. lra. Qed.

(** C6, as the code has it.  Take the same candidate, scored for a
    profile and for the same profile with skills added.  Its skills
    match does not go down, and its final score does not go down as long
    as its similarity score, which is computed afresh from the longer
    skills text, does not. *)
Theorem added_skill_final_score
        (cosine_sim : list string -> string -> string -> Q)
        (df : list Posting) (vectors : list string) (p : UserProfile)
        (l : list string) (i : nat) (r r' : ScoredRow) :
  incl (skills p) l ->
  nth_error (scored_candidates cosine_sim df vectors p) i = Some r ->
  nth_error (scored_candidates cosine_sim df vectors (with_skills p l)) i = Some r' ->
  similarity_score r <= similarity_score r' ->
  row r' = row r /\
  skills_match_score r <= skills_match_score r' /\
  final_score r <= final_score r'.
Proof.
  intros Hincl Hr Hr' Hsim. unfold scored_candidates in Hr, Hr'.
  change (_apply_filters df (with_skills p l)) with (_apply_filters df p) in Hr'.
  apply score_rows_nth in Hr. apply score_rows_nth in Hr'.
  destruct Hr as (x & Hx & Er). destruct Hr' as (x' & Hx' & Er').
  rewrite Hx in Hx'. injection Hx' as <-.
  rewrite Er, Er'. cbn [row skills_match_score final_score score_row similarity_score].
  pose proof (skills_match_incl (required_skills x) _ _ Hincl) as Hskl.
  split; [reflexivity|]. split; [exact Hskl|].
  now apply weighted_sum_le.
Qed.

Lemma added_skill_final_score_witness :
  let p := Demo.profile UNDERGRADUATE ["React"%string] in
  let p' := with_skills p ["React"; "Python"]%string in
  final_score (score_row p Demo.web 0) <= final_score (score_row p' Demo.web 0).
Proof.
  cbv zeta.
  refine (proj2 (proj2 (added_skill_final_score Demo.no_overlap [Demo.web]
                          (map combined_features [Demo.web])
                          (Demo.profile UNDERGRADUATE ["React"%string])
                          ["React"; "Python"]%string 0 _ _ _ eq_refl eq_refl _))).
  - intros a [<-|[]]. simpl. auto.
  - simpl. discriminate.
Defined.

(** C6, as stated, fails.  The posting [web] requires "Python,React";
    the profile already lists Python and React.  Listing Python once
    more leaves the skills match at 20 and turns the query vector away
    from the record, so the cosine drops from about 0.7071 to about
    0.6708 and the final score from 568.284 to 566.832. *)
Lemma added_skill_lowers_final_score :
  let df := [Demo.web] in
  let vectors := map combined_features df in
  let p := Demo.profile UNDERGRADUATE ["Python"; "React"]%string in
  let p' := with_skills p ["Python"; "React"; "Python"]%string in
  In "Python"%string (split_comma (required_skills Demo.web)) /\
  exists r r',
    scored_candidates Demo.repeated_skill_cosine df vectors p = [r] /\
    scored_candidates Demo.repeated_skill_cosine df vectors p' = [r'] /\
    row r = Demo.web /\ row r' = Demo.web /\
    skills_match_score r == 20 /\ skills_match_score r' == 20 /\
    final_score r == 568284 # 1000 /\
    final_score r' == 566832 # 1000 /\
    final_score r' < final_score r.
Proof.
  cbv zeta. split; [simpl; auto|].
  eexists. eexists. split; [reflexivity|]. split; [reflexivity|].
  repeat split; vm_compute; reflexivity.
Qed.

(** * Further properties of the engine *)

(** ** Substrings *)

Lemma prefix_app (n h : string) :
  prefix n h = true <-> exists post, h = (n ++ post)%string.
Proof.
  revert h. induction n as [|c n IH]; intros h; simpl.
  - split; [intros _; now exists h|intros _; now destruct h].
  - destruct h as [|d h]; [split; [discriminate|intros (post & H); discriminate]|].
    cbn [prefix]. destruct (ascii_dec c d) as [->|Hne].
    + rewrite IH. split; intros (post & H); exists post; [now subst|now injection H].
    + split; [discriminate|]. intros (post & H). injection H as -> _. contradiction.
Qed.

(** [needle in hay] holds exactly when [hay] is [pre + needle + post]. *)
Lemma contains_app (n h : string) :
  contains n h = true <-> exists pre post, h = (pre ++ n ++ post)%string.
Proof.
  induction h as [|d h IH]; cbn [contains].
  - rewrite orb_false_r, prefix_app. split.
    + intros (post & H). now exists ""%string, post.
    + intros (pre & post & H). exists post.
      destruct pre; [exact H|discriminate].
  - rewrite orb_true_iff, prefix_app, IH. split.
    + intros [(post & H)|(pre & post & H)].
      * now exists ""%string, post.
      * exists (String d pre), post. simpl. now rewrite H.
    + intros (pre & post & H). destruct pre as [|c pre].
      * left. now exists post.
      * right. injection H as _ H. now exists pre, post.
Qed.

Lemma string_app_assoc (a b c : string) : ((a ++ b) ++ c = a ++ (b ++ c))%string.
Proof. induction a as [|x a IH]; simpl; [reflexivity|now rewrite IH]. Qed.

Lemma string_app_nil_r (a : string) : (a ++ "" = a)%string.
Proof. induction a as [|x a IH]; simpl; [reflexivity|now rewrite IH]. Qed.

Lemma contains_refl (s : string) : contains s s = true.
Proof. apply contains_app. exists ""%string, ""%string. simpl. now rewrite string_app_nil_r. Qed.

Lemma contains_trans (a b c : string) :
  contains a b = true -> contains b c = true -> contains a c = true.
Proof.
  rewrite !contains_app. intros (p1 & q1 & ->) (p2 & q2 & ->).
  exists (p2 ++ p1)%string, (q1 ++ q2)%string.
  now rewrite !string_app_assoc.
Qed.

Lemma lower_ascii_idem (c : ascii) : lower_ascii (lower_ascii c) = lower_ascii c.
Proof.
  unfold lower_ascii.
  destruct ((65 <=? nat_of_ascii c)%nat && (nat_of_ascii c <=? 90)%nat) eqn:E.
  - apply andb_true_iff in E. destruct E as [E1 E2].
    apply Nat.leb_le in E1. apply Nat.leb_le in E2.
    rewrite nat_ascii_embedding by lia.
    replace (nat_of_ascii c + 32 <=? 90)%nat with false
      by (symmetry; apply Nat.leb_gt; lia).
    now rewrite andb_false_r.
  - now rewrite E.
Qed.

Lemma lower_idem (s : string) : lower (lower s) = lower s.
Proof.
  induction s as [|c s IH]; simpl; [reflexivity|].
  now rewrite lower_ascii_idem, IH.
Qed.

(** ** More on the education filter *)

Lemma eligible_rank_le (l l' : EducationLevel) (x : Posting) :
  (level_rank l <= level_rank l')%nat -> eligible l' x -> eligible l x.
Proof.
  intros Hle (l'' & Hle' & Hm). exists l''. split; [lia|exact Hm].
Qed.

Lemma mentions_graduate (l : EducationLevel) (x : Posting) :
  (2 <= level_rank l)%nat -> mentions l x -> mentions GRADUATE x.
Proof.
  unfold mentions. intros Hl H.
  destruct l; simpl in Hl; try lia; [| exact H |];
    (eapply contains_trans; [|exact H]); reflexivity.
Qed.

Lemma eligible_graduate (x : Posting) : eligible GRADUATE x <-> mentions GRADUATE x.
Proof.
  split.
  - intros (l & Hl & H). apply (mentions_graduate l); [simpl in Hl; lia|exact H].
  - intros H. exists GRADUATE. split; [lia|exact H].
Qed.

Lemma eligible_undergraduate (x : Posting) :
  eligible UNDERGRADUATE x <-> mentions GRADUATE x.
Proof.
  split.
  - intros (l & Hl & H). apply (mentions_graduate l); [exact Hl|exact H].
  - intros H. exists GRADUATE. split; [simpl; lia|exact H].
Qed.

Lemma str_contains_any_ext (l l' : EducationLevel) (x : Posting) :
  (eligible l x <-> eligible l' x) ->
  str_contains_any (education_mapping l) (education_requirement x) =
  str_contains_any (education_mapping l') (education_requirement x).
Proof.
  intros H. rewrite <- !str_contains_any_eligible in H.
  destruct (str_contains_any (education_mapping l) _),
           (str_contains_any (education_mapping l') _); try reflexivity.
  - symmetry. now apply H.
  - now apply H.
Qed.

(** X1.  The higher the profile's level, the fewer rows pass the education
    mask: what a profile is eligible for, every profile of a lower
    level is eligible for too. *)
Theorem education_filter_antitone (df : list Posting) (p p' : UserProfile) :
  (level_rank (education_level p) <= level_rank (education_level p'))%nat ->
  incl (education_filter df p') (education_filter df p).
Proof.
  intros Hle x Hx. apply education_filter_In in Hx. apply education_filter_In.
  destruct Hx as [Hin He]. split; [exact Hin|].
  now apply (eligible_rank_le _ (education_level p')).
Qed.

Lemma education_filter_antitone_witness :
  incl (education_filter [Demo.school_java; Demo.postgrad_python] Demo.postgraduate_student)
       (education_filter [Demo.school_java; Demo.postgrad_python] Demo.sales_student).
Proof.
  apply education_filter_antitone. simpl. lia.
Defined.

(** X2.  "Graduate" is part of the words "Undergraduate" and "Postgraduate",
    so an undergraduate and a graduate profile pass the same rows: those
    whose requirement contains "graduate". *)
Theorem undergraduate_graduate_same_candidates (df : list Posting) (p p' : UserProfile) :
  education_level p = UNDERGRADUATE ->
  education_level p' = GRADUATE ->
  _apply_filters df p = _apply_filters df p' /\
  forall x, In x (education_filter df p) <-> In x df /\ mentions GRADUATE x.
Proof.
  intros Hp Hp'.
  assert (E : education_filter df p = education_filter df p').
  { rewrite !education_filter_is_filter, Hp, Hp'. apply filter_ext. intros x.
    apply str_contains_any_ext. now rewrite eligible_undergraduate, eligible_graduate. }
  split.
  - unfold _apply_filters. now rewrite E.
  - intros x. now rewrite education_filter_In, Hp, eligible_undergraduate.
Qed.

Lemma undergraduate_graduate_same_candidates_witness :
  _apply_filters [Demo.web; Demo.postgrad_python] (Demo.profile UNDERGRADUATE ["Python"%string])
  = _apply_filters [Demo.web; Demo.postgrad_python] (Demo.profile GRADUATE ["Python"%string]).
Proof.
  refine (proj1 (undergraduate_graduate_same_candidates _ _ _ _ _)); reflexivity.
Defined.

Lemma filter_idem {A} (f : A -> bool) (l : list A) : filter f (filter f l) = filter f l.
Proof.
  induction l as [|a l IH]; simpl; [reflexivity|].
  destruct (f a) eqn:E; simpl; [rewrite E, IH; reflexivity|exact IH].
Qed.

Lemma filter_length_bound {A} (f : A -> bool) (l : list A) :
  (List.length (filter f l) <= List.length l)%nat.
Proof. induction l as [|a l IH]; simpl; [lia|]. destruct (f a); simpl; lia. Qed.

(** X3.  [_apply_filters] hands on rows of the catalog only, never more rows
    than the catalog has, and filtering its result once more changes
    nothing. *)
Theorem apply_filters_idempotent (df : list Posting) (p : UserProfile) :
  incl (_apply_filters df p) df /\
  (List.length (_apply_filters df p) <= List.length df)%nat /\
  _apply_filters (_apply_filters df p) p = _apply_filters df p.
Proof.
  split; [|split].
  - intros x Hx. now apply apply_filters_In in Hx.
  - unfold _apply_filters. destruct (List.length (education_filter df p) =? 0)%nat; [lia|].
    rewrite education_filter_is_filter. apply filter_length_bound.
  - unfold _apply_filters at 2 3.
    destruct (education_filter df p) as [|z l] eqn:E; cbn [List.length Nat.eqb].
    + unfold _apply_filters. now rewrite E.
    + rewrite <- E. unfold _apply_filters.
      assert (Ei : education_filter (education_filter df p) p = education_filter df p)
        by (rewrite !education_filter_is_filter; apply filter_idem).
      rewrite Ei, E. reflexivity.
Qed.

Lemma score_rows_In (df : list Posting) (p : UserProfile) (sims : list Q) (r : ScoredRow) :
  In r (score_rows df p sims) ->
  In (row r) df /\ r = score_row p (row r) (similarity_score r).
Proof.
  intros H. apply In_nth_error in H. destruct H as (i & Hi).
  apply score_rows_nth in Hi. destruct Hi as (x & Hx & Er).
  assert (Ex : row r = x) by now rewrite Er.
  rewrite Ex. split; [eapply nth_error_In; exact Hx|exact Er].
Qed.

(** X4.  When some posting of the catalog is eligible for the profile, every
    recommendation is the response object of an eligible posting of the
    catalog, whichever descending order the sort picks. *)
Theorem recommendations_are_eligible
        (cosine_sim : list string -> string -> string -> Q)
        (sort_values : list ScoredRow -> list ScoredRow)
        (py_hash_row : ScoredRow -> Z)
        (df : list Posting) (vectors : list string) (p : UserProfile)
        (y : Posting) (rec : InternshipRecommendation) :
  sort_values_contract sort_values ->
  In y df -> eligible (education_level p) y ->
  In rec (recommend cosine_sim sort_values py_hash_row df vectors p) ->
  exists r, rec = _create_recommendation_object py_hash_row r p /\
            In (row r) df /\ eligible (education_level p) (row r).
Proof.
  intros Hsv Hy He Hrec. unfold recommend, _score_internships in Hrec.
  apply in_map_iff in Hrec. destruct Hrec as (r & <- & Hr).
  exists r. split; [reflexivity|].
  apply firstn_In in Hr.
  apply (Permutation_in _ (Permutation_sym (proj1 (Hsv _)))) in Hr.
  apply score_rows_In in Hr. destruct Hr as [Hin _].
  apply apply_filters_In in Hin. destruct Hin as [Hdf [Hel|Hno]].
  - now split.
  - exfalso. exact (Hno y Hy He).
Qed.

Lemma recommendations_are_eligible_witness :
  let df := [Demo.school_java; Demo.postgrad_python] in
  exists r, In (row r) df /\ eligible POSTGRADUATE (row r).
Proof.
  cbv zeta.
  destruct (recommendations_are_eligible Demo.no_overlap Demo.sort_ties_kept Demo.hash0
              [Demo.school_java; Demo.postgrad_python]
              (map combined_features [Demo.school_java; Demo.postgrad_python])
              Demo.postgraduate_student Demo.postgrad_python
              (_create_recommendation_object Demo.hash0
                 (score_row Demo.postgraduate_student Demo.postgrad_python 0)
                 Demo.postgraduate_student)
              sort_ties_kept_contract) as (r & _ & H).
  - simpl. auto.
  - exists POSTGRADUATE. split; [simpl; lia|reflexivity].
  - left. reflexivity.
  - exists r. exact H.
Defined.

(** ** Range of the skills match *)

Lemma skill_matches_bound (required user : list string) :
  (skill_matches required user <= List.length required)%nat.
Proof. apply filter_length_bound. Qed.

Lemma ratio_times_20 (zm : Z) (pn : positive) :
  (0 <= zm <= Z.pos pn)%Z ->
  let s := inject_Z zm / inject_Z (Z.pos pn) * 20 in
  0 <= s /\ s <= 20 /\ (10 < s <-> (Z.pos pn < 2 * zm)%Z) /\ (s == 20 <-> zm = Z.pos pn).
Proof.
  intros H s. unfold s, Qdiv, Qinv, Qmult, Qle, Qlt, Qeq, inject_Z. cbn [Qnum Qden].
  repeat split; intros; try lia; nia.
Qed.

Lemma skills_match_ratio (required_skills : string) (user_skills : list string) :
  exists (zm : Z) (pn : positive),
    (0 <= zm <= Z.pos pn)%Z /\
    zm = Z.of_nat (skill_matches (map norm_skill (split_comma required_skills))
                                 (map norm_skill user_skills)) /\
    Z.pos pn = Z.of_nat (List.length (map norm_skill (split_comma required_skills))) /\
    _calculate_skills_match required_skills user_skills ==
    inject_Z zm / inject_Z (Z.pos pn) * 20.
Proof.
  pose proof (skills_match_formula required_skills user_skills) as F. cbv zeta in F.
  pose proof (skill_matches_bound (map norm_skill (split_comma required_skills))
                                  (map norm_skill user_skills)) as B.
  assert (N : List.length (map norm_skill (split_comma required_skills)) <> 0%nat).
  { rewrite length_map. intros H. apply length_zero_iff_nil in H.
    now apply split_comma_nonempty in H. }
  destruct (Z.of_nat (List.length (map norm_skill (split_comma required_skills))))
    as [|pn|pn] eqn:En; try lia.
  eexists. exists pn. split; [|split; [reflexivity|split; [reflexivity|exact F]]]. lia.
Qed.

Lemma skill_matches_no_user (required : list string) : skill_matches required [] = 0%nat.
Proof. unfold skill_matches. induction required as [|a l IH]; simpl; [reflexivity|exact IH]. Qed.

Lemma skills_match_between (required_skills : string) (user_skills : list string) :
  0 <= _calculate_skills_match required_skills user_skills /\
  _calculate_skills_match required_skills user_skills <= 20.
Proof.
  destruct (skills_match_ratio required_skills user_skills) as (zm & pn & B & _ & _ & E).
  destruct (ratio_times_20 zm pn B) as (H0 & H20 & _).
  rewrite E. now split.
Qed.

(** X5.  The skills match lies between 0 and 20, and a profile without
    skills scores 0 on every posting. *)
Theorem skills_match_range (required_skills : string) (user_skills : list string) :
  0 <= _calculate_skills_match required_skills user_skills /\
  _calculate_skills_match required_skills user_skills <= 20 /\
  _calculate_skills_match required_skills [] == 0.
Proof.
  destruct (skills_match_between required_skills user_skills) as [H0 H20].
  split; [exact H0|]. split; [exact H20|].
  rewrite skills_match_formula. cbn [map]. rewrite skill_matches_no_user.
  unfold Qdiv. ring.
Qed.

Lemma skill_matches_all (required user : list string) :
  incl required user -> skill_matches required user = List.length required.
Proof.
  unfold skill_matches. induction required as [|a l IH]; intros Hincl; [reflexivity|].
  simpl.
  assert (Ha : skill_hits a user = true).
  { unfold skill_hits. apply existsb_exists. exists a. split.
    - apply Hincl. now left.
    - now rewrite contains_refl. }
  rewrite Ha. simpl. f_equal. apply IH. intros b Hb. apply Hincl. now right.
Qed.

(** X6.  A profile that lists every entry of the posting's required skills
    (after trimming and lower-casing) gets the full 20. *)
Theorem skills_match_full (required_skills : string) (user_skills : list string) :
  incl (map norm_skill (split_comma required_skills)) (map norm_skill user_skills) ->
  _calculate_skills_match required_skills user_skills == 20.
Proof.
  intros Hincl.
  destruct (skills_match_ratio required_skills user_skills) as (zm & pn & B & Em & En & E).
  destruct (ratio_times_20 zm pn B) as (_ & _ & _ & H20).
  rewrite E. apply H20. rewrite Em, En. f_equal.
  now apply skill_matches_all.
Qed.

Lemma skills_match_full_witness :
  _calculate_skills_match "Python, React" [" react"; "PYTHON"]%string == 20.
Proof.
  apply skills_match_full. intros a [<-|[<-|[]]]; simpl; auto.
Defined.

(** X7.  The skills match depends on which skills the profile lists, not on
    their order or on repetitions. *)
Theorem skills_match_same_set (required_skills : string) (user user' : list string) :
  incl user user' -> incl user' user ->
  _calculate_skills_match required_skills user ==
  _calculate_skills_match required_skills user'.
Proof.
  intros H1 H2. apply Qle_antisym; now apply skills_match_incl.
Qed.

Lemma skills_match_same_set_witness :
  _calculate_skills_match "Python,React" ["Python"; "SQL"]%string ==
  _calculate_skills_match "Python,React" ["SQL"; "Python"; "SQL"]%string.
Proof.
  apply skills_match_same_set; intros a H; simpl in *; tauto.
Defined.

(** ** Match reasons *)

Ltac q_absurd :=
  match goal with
  | H1 : ?a < ?b, H2 : ?b <= ?a |- _ => exfalso; exact (Qlt_not_le _ _ H1 H2)
  end.

Lemma reasons_of_In (r : ScoredRow) (s : string) :
  In s (reasons_of r) <->
  (s = "Strong skills alignment"%string /\ 10 < skills_match_score r) \/
  (s = "Preferred location match"%string /\ 0 < location_score r) \/
  (s = "Sector preference aligned"%string /\ 0 < sector_score r) \/
  (s = "Content similarity high"%string /\ 3 # 10 < similarity_score r) \/
  (s = "General compatibility"%string /\
   skills_match_score r <= 10 /\ location_score r <= 0 /\ sector_score r <= 0 /\
   similarity_score r <= 3 # 10).
Proof.
  unfold reasons_of.
  destruct (Qlt_le_dec 10 (skills_match_score r)) as [A|A];
    destruct (Qlt_le_dec 0 (location_score r)) as [B|B];
    destruct (Qlt_le_dec 0 (sector_score r)) as [C|C];
    destruct (Qlt_le_dec (3 # 10) (similarity_score r)) as [D|D];
    cbn [app In];
    (split;
     [ intros H; decompose [or] H; subst; tauto
     | intros H; decompose [or and] H; subst; auto 6; q_absurd ]).
Qed.

(** X8.  The reasons list is never empty, has no repetition, holds at most
    four tags, and "General compatibility" appears only alone. *)
Theorem reasons_general_alone (r : ScoredRow) :
  reasons_of r <> [] /\
  NoDup (reasons_of r) /\
  (List.length (reasons_of r) <= 4)%nat /\
  (In "General compatibility"%string (reasons_of r) <->
   reasons_of r = ["General compatibility"%string]).
Proof.
  unfold reasons_of.
  destruct (Qlt_le_dec 10 (skills_match_score r));
    destruct (Qlt_le_dec 0 (location_score r));
    destruct (Qlt_le_dec 0 (sector_score r));
    destruct (Qlt_le_dec (3 # 10) (similarity_score r));
    cbn [app List.length];
    (split; [discriminate|]);
    (split; [repeat constructor; simpl; intuition discriminate|]);
    (split; [lia|]);
    simpl; intuition discriminate.
Qed.

(** X9.  For a scored candidate each tag says what its sub-score says: the
    location tag appears exactly when the preferred location occurs in
    the posting's location, the sector tag exactly when some preferred
    sector occurs in the posting's sector, the similarity tag exactly
    when the similarity exceeds 0.3 (letter case ignored throughout). *)
Theorem reasons_track_preferences (p : UserProfile) (x : Posting) (sim : Q) :
  let r := score_row p x sim in
  (In "Preferred location match"%string (reasons_of r) <->
   contains (lower (preferred_location p)) (lower (location x)) = true) /\
  (In "Sector preference aligned"%string (reasons_of r) <->
   exists s, In s (preferred_sectors p) /\ contains (lower s) (lower (sector x)) = true) /\
  (In "Content similarity high"%string (reasons_of r) <-> 3 # 10 < sim).
Proof.
  intros r. rewrite !reasons_of_In.
  unfold r. cbn [score_row location_score sector_score similarity_score skills_match_score].
  unfold location_score_of, sector_score_of. rewrite <- existsb_exists.
  destruct (contains (lower (preferred_location p)) (lower (location x)));
    destruct (existsb _ (preferred_sectors p));
    repeat split; intros H;
      try (decompose [or and] H; try discriminate; try reflexivity; try assumption;
           match goal with
           | H' : 0 < 0 |- _ => now apply Qlt_irrefl in H'
           end);
      try (right; left; split; reflexivity);
      try (right; right; left; split; reflexivity);
      try (right; right; right; left; split; [reflexivity|assumption]).
Qed.

(** X10.  "Strong skills alignment" is shown exactly when more than half of
    the entries of the posting's required skills are matched. *)
Theorem strong_skills_iff_majority (p : UserProfile) (x : Posting) (sim : Q) :
  let required := map norm_skill (split_comma (required_skills x)) in
  let user := map norm_skill (skills p) in
  In "Strong skills alignment"%string (reasons_of (score_row p x sim)) <->
  (List.length required < 2 * skill_matches required user)%nat.
Proof.
  intros required user. rewrite reasons_of_In.
  cbn [score_row skills_match_score].
  destruct (skills_match_ratio (required_skills x) (skills p))
    as (zm & pn & B & Em & En & E).
  destruct (ratio_times_20 zm pn B) as (_ & _ & Hmaj & _).
  fold required in Em, En. fold user in Em. rewrite E, Hmaj.
  split.
  - intros H. decompose [or and] H; try discriminate. lia.
  - intros H. left. split; [reflexivity|lia].
Qed.

(** ** Range of the final score and the public score *)

Lemma experience_score_values (x : Posting) (years : Z) :
  _calculate_experience_score x years = 5 \/
  _calculate_experience_score x years = 3 \/
  _calculate_experience_score x years = 2.
Proof.
  unfold _calculate_experience_score.
  destruct (years =? 0)%Z; [now left|]. destruct (years <=? 2)%Z; auto.
Qed.

(** X11.  With a similarity between 0 and 1 the final score of a candidate
    lies between 2 and 580; its location score is 0 or 20, its sector
    score 0 or 15, its experience score 2, 3 or 5. *)
Theorem final_score_bounds (p : UserProfile) (x : Posting) (sim : Q) :
  0 <= sim -> sim <= 1 ->
  let r := score_row p x sim in
  2 <= final_score r /\ final_score r <= 580 /\
  (location_score r = 0 \/ location_score r = 20) /\
  (sector_score r = 0 \/ sector_score r = 15) /\
  (experience_score r = 2 \/ experience_score r = 3 \/ experience_score r = 5).
Proof.
  intros H0 H1 r. unfold r.
  cbn [score_row final_score location_score sector_score experience_score].
  destruct (skills_match_between (required_skills x) (skills p)) as (S0 & S20).
  assert (L : location_score_of p (location x) = 0 \/ location_score_of p (location x) = 20)
    by (unfold location_score_of; destruct (contains _ _); auto).
  assert (C : sector_score_of p (sector x) = 0 \/ sector_score_of p (sector x) = 15)
    by (unfold sector_score_of; destruct (existsb _ _); auto).
  pose proof (experience_score_values x (experience_years p)) as X.
  unfold weighted_sum.
  repeat split; try tauto;
    destruct L as [-> | ->], C as [-> | ->], X as [-> | [-> | ->]]; lra.
Qed.

Lemma final_score_bounds_witness :
  let r := score_row Demo.sales_student Demo.web (1 # 2) in
  2 <= final_score r /\ final_score r <= 580.
Proof.
  cbv zeta.
  destruct (final_score_bounds Demo.sales_student Demo.web (1 # 2)) as (A & B & _);
    [discriminate|discriminate|]. now split.
Defined.

Lemma match_score_at_100 (r : ScoredRow) : 100 <= final_score r -> match_score_of r == 100.
Proof.
  intros H. rewrite match_score_clamp.
  assert (E : Qmax 0 (Qmin 100 (final_score r)) == 100).
  { rewrite (Q.min_l _ _ H). apply Q.max_r. discriminate. }
  rewrite (py_round1_comp _ _ E). reflexivity.
Qed.

(** X12.  The public score saturates: a candidate whose skills match is at
    least 4 (a fifth of the required entries matched) and whose
    similarity is not negative has a final score of at least 100 and is
    shown with a match score of exactly 100. *)
Theorem match_score_saturates
        (py_hash_row : ScoredRow -> Z) (p : UserProfile) (x : Posting) (sim : Q) :
  0 <= sim ->
  4 <= _calculate_skills_match (required_skills x) (skills p) ->
  let r := score_row p x sim in
  100 <= final_score r /\
  match_score (_create_recommendation_object py_hash_row r p) == 100.
Proof.
  intros H0 H4 r.
  assert (F : 100 <= final_score r).
  { unfold r. cbn [score_row final_score]. unfold weighted_sum.
    assert (L : 0 <= location_score_of p (location x))
      by (unfold location_score_of; destruct (contains _ _); discriminate).
    assert (C : 0 <= sector_score_of p (sector x))
      by (unfold sector_score_of; destruct (existsb _ _); discriminate).
    destruct (experience_score_values x (experience_years p)) as [-> | [-> | ->]]; lra. }
  split; [exact F|]. cbn [_create_recommendation_object match_score].
  now apply match_score_at_100.
Qed.

Lemma match_score_saturates_witness :
  match_score (_create_recommendation_object Demo.hash0
                 (score_row (Demo.profile UNDERGRADUATE ["Python"%string]) Demo.web 0)
                 (Demo.profile UNDERGRADUATE ["Python"%string])) == 100.
Proof.
  refine (proj2 (match_score_saturates Demo.hash0
                   (Demo.profile UNDERGRADUATE ["Python"%string]) Demo.web 0 _ _));
    vm_compute; discriminate.
Defined.


(** ** Sector and location lists *)

Lemma insert_sorted_perm (s : string) (l : list string) :
  Permutation (s :: l) (insert_sorted s l).
Proof.
  induction l as [|h t IH]; simpl; [reflexivity|].
  destruct (String.leb s h); [reflexivity|].
  rewrite perm_swap. now apply perm_skip.
Qed.

Lemma sorted_perm (l : list string) : Permutation l (sorted l).
Proof.
  unfold sorted. induction l as [|s l IH]; simpl; [reflexivity|].
  rewrite <- insert_sorted_perm. now apply perm_skip.
Qed.

Lemma insert_sorted_Sorted (s : string) (l : list string) :
  Sorted (fun a b => String.leb a b = true) l ->
  Sorted (fun a b => String.leb a b = true) (insert_sorted s l).
Proof.
  induction 1 as [|h t Hs IH Hhd]; simpl.
  - repeat constructor.
  - destruct (String.leb s h) eqn:E.
    + constructor; [now constructor|]. now constructor.
    + assert (Hhs : String.leb h s = true)
        by (destruct (String.leb_total s h); congruence).
      constructor; [exact IH|].
      destruct Hhd as [|b t' Hb]; simpl.
      * now constructor.
      * destruct (String.leb s b); now constructor.
Qed.

Lemma sorted_Sorted (l : list string) :
  Sorted (fun a b => String.leb a b = true) (sorted l).
Proof.
  unfold sorted. induction l as [|s l IH]; simpl; [constructor|].
  now apply insert_sorted_Sorted.
Qed.

Lemma unique_In (l : list string) (s : string) : In s (unique l) <-> In s l.
Proof.
  induction l as [|h t IH]; simpl; [tauto|].
  rewrite filter_In, IH, negb_true_iff, String.eqb_neq.
  destruct (string_dec h s) as [->|Hne]; [tauto|].
  split; [tauto|]. intros [H|H]; [tauto|]. right. split; [exact H|congruence].
Qed.

Lemma unique_NoDup (l : list string) : NoDup (unique l).
Proof.
  induction l as [|h t IH]; simpl; constructor.
  - rewrite filter_In, negb_true_iff, String.eqb_neq. tauto.
  - now apply NoDup_filter.
Qed.

Lemma sorted_unique_In (f : Posting -> string) (df : list Posting) (s : string) :
  In s (sorted (unique (map f df))) <-> exists x, In x df /\ f x = s.
Proof.
  split.
  - intros H. apply (Permutation_in _ (Permutation_sym (sorted_perm _))) in H.
    apply unique_In, in_map_iff in H. destruct H as (x & Hx & Hin). now exists x.
  - intros (x & Hin & Hx). apply (Permutation_in _ (sorted_perm _)).
    apply unique_In, in_map_iff. now exists x.
Qed.

(** X14.  On a loaded engine the sector list and the location list are in
    ascending order, hold no value twice, and hold exactly the values
    that occur in the catalog. *)
Theorem available_sectors_sorted_unique (e : Engine) (df : list Posting) :
  is_loaded e = true ->
  internships_df e = Some df ->
  exists sectors locations,
    get_available_sectors e = (Ok sectors, e) /\
    get_available_locations e = (Ok locations, e) /\
    Sorted (fun a b => String.leb a b = true) sectors /\ NoDup sectors /\
    (forall s, In s sectors <-> exists x, In x df /\ sector x = s) /\
    Sorted (fun a b => String.leb a b = true) locations /\ NoDup locations /\
    (forall s, In s locations <-> exists x, In x df /\ location x = s).
Proof.
  intros Hl Hdf.
  exists (sorted (unique (map sector df))), (sorted (unique (map location df))).
  unfold get_available_sectors, get_available_locations, bind, get_self, ret.
  rewrite Hl, Hdf. cbn [negb].
  split; [reflexivity|]. split; [reflexivity|].
  split; [apply sorted_Sorted|].
  split; [eapply Permutation_NoDup; [apply sorted_perm|apply unique_NoDup]|].
  split; [intros s; apply sorted_unique_In|].
  split; [apply sorted_Sorted|].
  split; [eapply Permutation_NoDup; [apply sorted_perm|apply unique_NoDup]|].
  intros s; apply sorted_unique_In.
Qed.

Lemma available_sectors_sorted_unique_witness :
  exists (sectors locations : list string),
    get_available_sectors
      {| internships_df := Some [Demo.web; Demo.unspecified; Demo.web_again];
         skills_vectors := None; is_loaded := true |}
    = (Ok sectors, {| internships_df := Some [Demo.web; Demo.unspecified; Demo.web_again];
                      skills_vectors := None; is_loaded := true |}) /\
    NoDup sectors /\ NoDup locations.
Proof.
  destruct (available_sectors_sorted_unique
              {| internships_df := Some [Demo.web; Demo.unspecified; Demo.web_again];
                 skills_vectors := None; is_loaded := true |}
              [Demo.web; Demo.unspecified; Demo.web_again] eq_refl eq_refl)
    as (s & l & H1 & _ & _ & H2 & _ & _ & H3 & _).
  exists s, l. repeat split; assumption.
Defined.

(** ** Loading and the states of the engine *)

Lemma apply_filters_length (df : list Posting) (p : UserProfile) :
  (List.length (_apply_filters df p) <= List.length df)%nat.
Proof.
  unfold _apply_filters. destruct (List.length (education_filter df p) =? 0)%nat; [lia|].
  rewrite education_filter_is_filter. apply filter_length_bound.
Qed.

Lemma recommend_length
      (cosine_sim : list string -> string -> string -> Q)
      (sort_values : list ScoredRow -> list ScoredRow)
      (py_hash_row : ScoredRow -> Z)
      (df : list Posting) (vectors : list string) (p : UserProfile) :
  sort_values_contract sort_values ->
  List.length (recommend cosine_sim sort_values py_hash_row df vectors p)
  = Nat.min 5 (List.length (_apply_filters df p)).
Proof.
  intros Hsv. unfold recommend, _score_internships.
  rewrite length_map, length_firstn.
  rewrite <- (Permutation_length (proj1 (Hsv _))). now rewrite score_rows_length.
Qed.

Lemma StronglySorted_app_inv {A} (R : A -> A -> Prop) (l1 l2 : list A) :
  StronglySorted R (l1 ++ l2) ->
  forall a b, In a l1 -> In b l2 -> R a b.
Proof.
  induction l1 as [|h t IH]; simpl; intros Hs a b Ha Hb; [contradiction|].
  inversion Hs as [|? ? Hs' Hall]; subst.
  destruct Ha as [->|Ha].
  - rewrite Forall_forall in Hall. apply Hall. apply in_or_app. now right.
  - now apply IH.
Qed.

(** X15.  The five rows that are kept are the best ones: whatever descending
    order the sort picks, no candidate that is left out has a higher
    final score than a candidate that is returned. *)
Theorem top5_are_best
        (sort_values : list ScoredRow -> list ScoredRow)
        (internships_df : list Posting) (p : UserProfile) (similarity_scores : list Q) :
  sort_values_contract sort_values ->
  let ranked := _score_internships sort_values internships_df p similarity_scores in
  Permutation (score_rows internships_df p similarity_scores)
              (firstn 5 ranked ++ skipn 5 ranked) /\
  forall r r', In r (firstn 5 ranked) -> In r' (skipn 5 ranked) ->
               final_score r' <= final_score r.
Proof.
  intros Hsv ranked. unfold ranked, _score_internships.
  destruct (Hsv (score_rows internships_df p similarity_scores)) as [Hp Hd].
  split.
  - now rewrite firstn_skipn.
  - intros r r' Hr Hr'. unfold descending in Hd.
    rewrite <- (firstn_skipn 5) in Hd.
    exact (StronglySorted_app_inv _ _ _ Hd r r' Hr Hr').
Qed.

Lemma top5_are_best_witness :
  let ranked := _score_internships Demo.sort_ties_kept [Demo.web; Demo.web_again]
                                   Demo.sales_student [0; 0] in
  Permutation (score_rows [Demo.web; Demo.web_again] Demo.sales_student [0; 0])
              (firstn 5 ranked ++ skipn 5 ranked).
Proof.
  exact (proj1 (top5_are_best Demo.sort_ties_kept [Demo.web; Demo.web_again]
                  Demo.sales_student [0; 0] sort_ties_kept_contract)).
Defined.

Ltac run_method := cbv beta iota zeta delta [negb fst snd].

Section Service.

Variable to_numeric : string -> option Q.
Variable fit_ok : list string -> bool.
Variable cosine_sim : list string -> string -> string -> Q.
Variable sort_values : list ScoredRow -> list ScoredRow.
Variable py_hash_row : ScoredRow -> Z.
Variable str_of_exception : caught -> string.

Local Abbreviation load := (load_data to_numeric fit_ok).
Local Abbreviation recs := (get_recommendations cosine_sim sort_values py_hash_row).
Local Abbreviation reach := (reachable to_numeric fit_ok).

(** In every state the engine can reach, a loaded engine has a frame,
    and its matrix is the one fitted on that frame. *)
Lemma reachable_consistent (e : Engine) :
  reach e -> is_loaded e = true ->
  exists df, internships_df e = Some df /\
             skills_vectors e = Some (map combined_features df).
Proof.
  intros Hr. destruct Hr as [|csv e0 _]; [discriminate|].
  pose proof (load_data_outcome to_numeric fit_ok csv e0) as H. cbv zeta in H.
  destruct (fst (load csv e0)).
  - intros _. apply H.
  - rewrite H. discriminate.
Qed.

(** X16.  In every state the engine can reach [get_total_internships]
    returns and never raises: 0 when the engine is not loaded, the
    number of rows of the frame when it is; the engine stays as it is. *)
Theorem reachable_total_never_raises (e : Engine) :
  reach e ->
  exists n, get_total_internships e = (Ok n, e) /\
            (if is_loaded e
             then exists df, internships_df e = Some df /\ n = List.length df
             else n = 0%nat).
Proof.
  intros Hr. pose proof (reachable_consistent e Hr) as Hc.
  unfold get_total_internships, bind, get_self, ret.
  destruct (is_loaded e).
  - destruct (Hc eq_refl) as (df & Hdf & _). rewrite Hdf.
    eexists. split; [reflexivity|]. now exists df.
  - eexists. split; reflexivity.
Qed.

(** X17.  In a state the engine can reach, the similarity vector has one
    score per catalog row, so the candidate frame is never longer than
    it: the column is a prefix of the vector and no zero is padded. *)
Theorem no_padding_when_loaded (e : Engine) (df : list Posting) (vectors : list string)
        (p : UserProfile) :
  reach e -> is_loaded e = true ->
  internships_df e = Some df -> skills_vectors e = Some vectors ->
  let sims := similarity_scores_of cosine_sim vectors p in
  List.length sims = List.length df /\
  similarity_column (List.length (_apply_filters df p)) sims
  = firstn (List.length (_apply_filters df p)) sims.
Proof.
  intros Hr Hl Hdf Hv sims.
  destruct (reachable_consistent e Hr Hl) as (df' & Hdf' & Hv').
  rewrite Hdf in Hdf'. injection Hdf' as <-. rewrite Hv in Hv'. injection Hv' as ->.
  assert (Hlen : List.length sims = List.length df)
    by (unfold sims, similarity_scores_of; now rewrite !length_map).
  split; [exact Hlen|]. unfold similarity_column.
  pose proof (apply_filters_length df p) as Hle. rewrite <- Hlen in Hle.
  apply Nat.leb_le in Hle. now rewrite Hle.
Qed.

(** X18.  Whenever [load_data] returns without raising, the engine is
    loaded, its frame has exactly one row per row read from the CSV,
    and [get_total_internships] then returns that number. *)
Theorem load_success_total (csv : option (list RawRow)) (e : Engine) :
  fst (load csv e) = Ok tt ->
  let e' := snd (load csv e) in
  exists rows df,
    csv = Some rows /\
    is_loaded e' = true /\
    internships_df e' = Some df /\
    List.length df = List.length rows /\
    get_total_internships e' = (Ok (List.length rows), e').
Proof.
  unfold load_data, bind, get_self, put_self, raise.
  destruct csv as [rows|]; run_method; [|discriminate].
  destruct (fit_ok _); run_method; [|discriminate].
  intros _. exists rows, (map (load_row to_numeric) rows).
  split; [reflexivity|]. split; [reflexivity|]. split; [reflexivity|].
  split; [apply length_map|].
  unfold get_total_internships, bind, get_self, ret. run_method. cbn [is_loaded internships_df].
  now rewrite length_map.
Qed.

(** X19.  A load that raises takes the engine out of service, also when it
    was loaded before: [get_recommendations] then raises "Data not
    loaded", the total is 0 and the sector and location lists are
    empty. *)
Theorem failed_load_disables (csv : option (list RawRow)) (e : Engine) (x : exn)
        (p : UserProfile) :
  fst (load csv e) = Raise x ->
  let e' := snd (load csv e) in
  fst (recs p e') = Raise (PyException "Data not loaded") /\
  fst (get_total_internships e') = Ok 0%nat /\
  fst (get_available_sectors e') = Ok [] /\
  fst (get_available_locations e') = Ok [].
Proof.
  intros Hx e'.
  pose proof (load_data_outcome to_numeric fit_ok csv e) as H. cbv zeta in H.
  rewrite Hx in H. fold e' in H.
  unfold get_recommendations, get_total_internships, get_available_sectors,
    get_available_locations, bind, get_self, raise, ret.
  rewrite H. cbn. repeat split.
Qed.

(** ** The HTTP handlers *)

Local Abbreviation endpoint :=
  (recommend_endpoint cosine_sim sort_values py_hash_row str_of_exception).

(** X20.  The [/recommend] handler answers either with a non-empty list, from
    a loaded engine, or with status 500: the 503 and the 404 it raises
    itself are caught by its own [except Exception] and never reach the
    client.  It leaves the engine as it is. *)
Theorem recommend_endpoint_only_500 (p : UserProfile) (e : Engine) :
  snd (endpoint p e) = e /\
  match fst (endpoint p e) with
  | inl h => status_code h = 500%Z
  | inr recommendations => recommendations <> [] /\ is_loaded e = true
  end.
Proof.
  unfold recommend_endpoint, recommend_try, is_data_loaded, get_recommendations,
    bind, get_self, raise, ret.
  destruct (is_loaded e); run_method.
  - destruct (internships_df e) as [df|], (skills_vectors e) as [v|]; run_method;
      try (split; reflexivity).
    destruct (recommend cosine_sim sort_values py_hash_row df v p); run_method;
      [split; reflexivity|]. split; [reflexivity|]. split; [discriminate|reflexivity].
  - split; reflexivity.
Qed.

(** X21.  A request to an engine that is not loaded is answered with
    status 500, not 503: the detail is the handler's prefix followed by
    the rendering of the 503 exception it raised itself. *)
Theorem not_ready_answered_500 (p : UserProfile) (e : Engine) :
  is_loaded e = false ->
  endpoint p e =
    (inl {| status_code := 500;
            detail := "Failed to generate recommendations: " ++
                      str_of_exception
                        (CaughtHTTP {| status_code := 503;
                                       detail := "Recommendation service is not ready. Please try again later." |}) |},
     e).
Proof.
  intros Hl.
  unfold recommend_endpoint, recommend_try, is_data_loaded, bind, get_self, ret.
  rewrite Hl. reflexivity.
Qed.

(** A vectorizer that rejects the empty corpus never lets an empty
    catalog become loaded. *)
Lemma reachable_nonempty (e : Engine) (df : list Posting) :
  fit_ok [] = false ->
  reach e -> is_loaded e = true -> internships_df e = Some df -> df <> [].
Proof.
  intros Hfit Hr. destruct Hr as [|csv e0 _]; [discriminate|].
  unfold load_data, bind, get_self, put_self, raise.
  destruct csv as [rows|]; run_method; [|discriminate].
  destruct (fit_ok (map combined_features (map (load_row to_numeric) rows))) eqn:E;
    run_method; [|discriminate].
  intros _ [= <-] Hnil. apply map_eq_nil in Hnil. subst rows.
  cbn [map] in E. congruence.
Qed.

(** X22.  When the vectorizer rejects an empty corpus, the 404 of the
    [/recommend] handler is dead code in every state the engine can
    reach: the [try] block raises the 503 only when the engine is not
    loaded, never raises the 404, and a list it returns has between one
    and five recommendations. *)
Theorem recommend_never_404 (p : UserProfile) (e : Engine) :
  reach e -> fit_ok [] = false -> sort_values_contract sort_values ->
  match fst (recommend_try cosine_sim sort_values py_hash_row p e) with
  | inl (CaughtHTTP h) => status_code h = 503%Z /\ is_loaded e = false
  | inl (CaughtExn _) => True
  | inr recommendations =>
      is_loaded e = true /\ (1 <= List.length recommendations <= 5)%nat
  end.
Proof.
  intros Hr Hfit Hsv.
  unfold recommend_try, is_data_loaded, get_recommendations, bind, get_self, raise, ret.
  destruct (is_loaded e) eqn:Hl; run_method; [|split; reflexivity].
  destruct (reachable_consistent e Hr Hl) as (df & Hdf & Hv).
  pose proof (reachable_nonempty e df Hfit Hr Hl Hdf) as Hne.
  rewrite Hdf, Hv. run_method.
  pose proof (recommend_length cosine_sim sort_values py_hash_row df
                               (map combined_features df) p Hsv) as Hlen.
  assert (Hc : (1 <= List.length (_apply_filters df p))%nat).
  { pose proof (apply_filters_nonempty df p Hne) as Hn.
    destruct (_apply_filters df p); [contradiction|simpl; lia]. }
  destruct (recommend cosine_sim sort_values py_hash_row df (map combined_features df) p)
    as [|r0 rs] eqn:Er; [cbn [List.length] in Hlen; lia|].
  split; [reflexivity|]. lia.
Qed.

(** X23.  After the startup hook the [/health] handler always answers
    "healthy"; it reports the engine loaded exactly when [load_data]
    returned without raising, then with the number of rows read, and
    with 0 rows otherwise. *)
Theorem health_after_startup (csv : option (list RawRow)) (e : Engine) :
  let e' := startup_event to_numeric fit_ok csv e in
  let ok := match fst (load csv e) with Ok _ => true | Raise _ => false end in
  health_check e' =
  (Ok {| health_status := "healthy";
         data_loaded := ok;
         total_internships := if ok then List.length (fillna [] csv) else 0%nat |}, e').
Proof.
  unfold startup_event, health_check, is_data_loaded, get_total_internships,
    load_data, bind, get_self, put_self, raise, ret.
  destruct csv as [rows|]; cbn; [|reflexivity].
  destruct (fit_ok _); cbn; [|reflexivity]. now rewrite length_map.
Qed.

End Service.

Lemma reachable_loaded_web : reachable Demo.to_numeric_none Demo.fit_nonempty Demo.loaded_web.
Proof. apply reach_load, reach_init. Qed.

Lemma reachable_total_never_raises_witness :
  exists n, get_total_internships Demo.loaded_web = (Ok n, Demo.loaded_web).
Proof.
  destruct (reachable_total_never_raises Demo.to_numeric_none Demo.fit_nonempty
              Demo.loaded_web reachable_loaded_web) as (n & H & _).
  now exists n.
Defined.

Lemma no_padding_when_loaded_witness :
  List.length (similarity_scores_of Demo.no_overlap
                 ["Python,React Technology Backend"%string] Demo.sales_student) = 1%nat.
Proof.
  refine (proj1 (no_padding_when_loaded Demo.to_numeric_none Demo.fit_nonempty
                   Demo.no_overlap Demo.loaded_web
                   [load_row Demo.to_numeric_none Demo.raw_web]
                   ["Python,React Technology Backend"%string] Demo.sales_student
                   reachable_loaded_web _ _ _)); reflexivity.
Defined.

Lemma load_success_total_witness :
  get_total_internships Demo.loaded_web = (Ok 1%nat, Demo.loaded_web).
Proof.
  destruct (load_success_total Demo.to_numeric_none Demo.fit_nonempty
              (Some [Demo.raw_web]) init eq_refl) as (rows & df & E & _ & _ & _ & H).
  injection E as <-. exact H.
Defined.

Lemma failed_load_disables_witness :
  let e' := snd (load_data Demo.to_numeric_none Demo.fit_nonempty None Demo.loaded_web) in
  is_loaded Demo.loaded_web = true /\
  fst (get_recommendations Demo.no_overlap Demo.sort_ties_kept Demo.hash0
                           Demo.sales_student e')
  = Raise (PyException "Data not loaded").
Proof.
  split; [reflexivity|].
  refine (proj1 (failed_load_disables Demo.to_numeric_none Demo.fit_nonempty
                   Demo.no_overlap Demo.sort_ties_kept Demo.hash0
                   None Demo.loaded_web (LibraryError "read_csv") Demo.sales_student _)).
  reflexivity.
Defined.

Lemma not_ready_answered_500_witness :
  fst (recommend_endpoint Demo.no_overlap Demo.sort_ties_kept Demo.hash0 Demo.str_blank
                          Demo.sales_student init)
  = inl {| status_code := 500; detail := "Failed to generate recommendations: " |}.
Proof.
  rewrite (not_ready_answered_500 Demo.no_overlap Demo.sort_ties_kept Demo.hash0
             Demo.str_blank Demo.sales_student init eq_refl).
  reflexivity.
Defined.

Lemma recommend_never_404_witness :
  exists recommendations,
    fst (recommend_try Demo.no_overlap Demo.sort_ties_kept Demo.hash0
                       Demo.sales_student Demo.loaded_web) = inr recommendations.
Proof.
  pose proof (recommend_never_404 Demo.to_numeric_none Demo.fit_nonempty
                Demo.no_overlap Demo.sort_ties_kept Demo.hash0
                Demo.sales_student Demo.loaded_web
                reachable_loaded_web eq_refl sort_ties_kept_contract) as H.
  destruct (fst (recommend_try Demo.no_overlap Demo.sort_ties_kept Demo.hash0
                               Demo.sales_student Demo.loaded_web)) as [[h|x]|l] eqn:E.
  - destruct H as [_ H]. discriminate H.
  - vm_compute in E. discriminate E.
  - now exists l.
Defined.

(** ** Fields of the response objects *)

Lemma contains_comma_cons (d : ascii) (t : string) :
  contains "," (String d t) = Ascii.eqb d ","%char || contains "," t.
Proof.
  cbn [contains prefix]. destruct (ascii_dec ","%char d) as [<-|Hne].
  - now destruct t.
  - destruct (Ascii.eqb_spec d ","%char) as [->|_]; [contradiction|reflexivity].
Qed.

Lemma split_comma_no_comma (s e : string) :
  In e (split_comma s) -> contains "," e = false.
Proof.
  revert e. induction s as [|c t IH]; intros e; simpl.
  - intros [<-|[]]. reflexivity.
  - destruct (Ascii.eqb c ","%char) eqn:Ec.
    + intros [<-|H]; [reflexivity|now apply IH].
    + destruct (split_comma t) as [|h r] eqn:Et.
      * intros [<-|[]]. now rewrite contains_comma_cons, Ec.
      * intros [<-|H].
        -- rewrite contains_comma_cons, Ec. apply IH. now left.
        -- apply IH. now right.
Qed.

Lemma lstrip_no_comma (s : string) :
  contains "," s = false -> contains "," (lstrip s) = false.
Proof.
  induction s as [|c t IH]; [trivial|].
  intros H. cbn [lstrip]. destruct (is_space c); [|exact H].
  rewrite contains_comma_cons in H. apply orb_false_iff in H. now apply IH.
Qed.

Lemma rstrip_no_comma (s : string) :
  contains "," s = false -> contains "," (rstrip s) = false.
Proof.
  induction s as [|c t IH]; [trivial|].
  intros H. rewrite contains_comma_cons in H. apply orb_false_iff in H.
  destruct H as [Hc Ht]. specialize (IH Ht). cbn [rstrip].
  destruct (rstrip t) as [|d u].
  - destruct (is_space c); [reflexivity|]. now rewrite contains_comma_cons, Hc.
  - now rewrite contains_comma_cons, Hc.
Qed.

Lemma lstrip_head (s : string) :
  lstrip s = ""%string \/ exists c u, lstrip s = String c u /\ is_space c = false.
Proof.
  induction s as [|c t IH]; [now left|]. cbn [lstrip].
  destruct (is_space c) eqn:E; [exact IH|]. right. now exists c, t.
Qed.

Lemma rstrip_idem (s : string) : rstrip (rstrip s) = rstrip s.
Proof.
  induction s as [|c t IH]; [reflexivity|]. cbn [rstrip].
  destruct (rstrip t) as [|d u] eqn:Et.
  - destruct (is_space c) eqn:Ec; [reflexivity|]. cbn [rstrip]. now rewrite Ec.
  - change (rstrip (String c (String d u)))
      with (match rstrip (String d u) with
            | EmptyString => if is_space c then EmptyString else String c EmptyString
            | String a b => String c (String a b)
            end).
    now rewrite IH.
Qed.

Lemma rstrip_head (c : ascii) (u : string) :
  is_space c = false -> exists v, rstrip (String c u) = String c v.
Proof.
  intros Hc. cbn [rstrip]. destruct (rstrip u); [rewrite Hc|]; now eexists.
Qed.

(** [strip] leaves nothing to strip. *)
Lemma strip_idem (s : string) : strip (strip s) = strip s.
Proof.
  unfold strip. destruct (lstrip_head s) as [->|(c & u & -> & Hc)]; [reflexivity|].
  destruct (rstrip_head c u Hc) as (v & Ev). rewrite Ev.
  cbn [lstrip]. rewrite Hc, <- Ev. apply rstrip_idem.
Qed.

Lemma strip_no_comma (s : string) :
  contains "," s = false -> contains "," (strip s) = false.
Proof. intros H. unfold strip. now apply rstrip_no_comma, lstrip_no_comma. Qed.

(** X24.  Every entry of [required_skills] in a response object is non-empty,
    carries no white space at either end and contains no comma. *)
Theorem response_required_skills_clean
        (py_hash_row : ScoredRow -> Z) (r : ScoredRow) (p : UserProfile) (s : string) :
  In s (rec_required_skills (_create_recommendation_object py_hash_row r p)) ->
  s <> ""%string /\ strip s = s /\ contains "," s = false.
Proof.
  cbn [_create_recommendation_object rec_required_skills]. unfold safe_list.
  intros Hs. apply filter_In in Hs. destruct Hs as [Hin Hne].
  apply in_map_iff in Hin. destruct Hin as (e & <- & He).
  split; [|split].
  - intros E. rewrite E in Hne. discriminate.
  - apply strip_idem.
  - apply strip_no_comma. revert He. apply split_comma_no_comma.
Qed.

Lemma response_required_skills_clean_witness :
  safe_list " Python , ,React," = ["Python"; "React"]%string /\
  strip "Python" = "Python"%string.
Proof.
  split; [reflexivity|].
  refine (proj1 (proj2 (response_required_skills_clean Demo.hash0
                          (score_row Demo.sales_student Demo.web 0) Demo.sales_student
                          "Python" _))).
  simpl. auto.
Defined.

Section ListHandlers.

Variable to_numeric : string -> option Q.
Variable fit_ok : list string -> bool.
Variable str_of_exception : caught -> string.

(** X25.  In a state the engine can reach, the [/sectors] and [/locations]
    handlers never answer with an error, and they leave the engine as
    it is. *)
Theorem list_endpoints_never_fail (e : Engine) :
  reachable to_numeric fit_ok e ->
  exists sectors locations,
    sectors_endpoint str_of_exception e = (inr sectors, e) /\
    locations_endpoint str_of_exception e = (inr locations, e).
Proof.
  intros Hr.
  unfold sectors_endpoint, locations_endpoint, get_available_sectors,
    get_available_locations, bind, get_self, ret.
  destruct (is_loaded e) eqn:Hl; run_method.
  - destruct (reachable_consistent to_numeric fit_ok e Hr Hl) as (df & -> & _).
    eexists. eexists. split; reflexivity.
  - eexists. eexists. split; reflexivity.
Qed.

End ListHandlers.

Lemma list_endpoints_never_fail_witness :
  exists sectors locations,
    sectors_endpoint Demo.str_blank Demo.loaded_web = (inr sectors, Demo.loaded_web) /\
    locations_endpoint Demo.str_blank Demo.loaded_web = (inr locations, Demo.loaded_web).
Proof.
  exact (list_endpoints_never_fail Demo.to_numeric_none Demo.fit_nonempty Demo.str_blank
           Demo.loaded_web reachable_loaded_web).
Defined.
